(** * AgrosProject: the [Analysis] class of [function/analysis_class.py]

    A shallow embedding of the [Analysis] class: the productivity table and
    the geographic table as lists of records, the methods as computations in
    a small monad that threads the object's fields and the cache file,
    records the console and rendering calls in a trace and stops at the
    first exception.

    The trace keeps the calls that carry data (the charts, the fit and
    the forecast, the console notices, the request and the file written);
    axis labels, captions and themes are left out, and so is
    [plot_quantity_correlations], whose correlation matrix is not rational.

    Numeric cells are float64 in the program.  They are embedded as exact
    rationals extended with the special values NaN, +inf and -inf: rounding,
    overflow of finite values and the sign of zero are not represented. *)

From Stdlib Require Import ZArith QArith String Ascii List Sorted Lia Lqa.
From stdpp Require Import base gmap strings list.

Local Open Scope string_scope.
Local Open Scope list_scope.
Local Open Scope Z_scope.
Local Set Warnings "-register-all".

(** ** Numeric cells *)

Inductive fval : Type :=
| Fin (q : Q)
| PInf
| NInf
| NaN.

Definition Qsign (q : Q) : comparison := (q ?= 0)%Q.

Definition fadd (x y : fval) : fval :=
  match x, y with
  | NaN, _ | _, NaN => NaN
  | Fin a, Fin b => Fin (a + b)%Q
  | PInf, NInf | NInf, PInf => NaN
  | PInf, _ | _, PInf => PInf
  | NInf, _ | _, NInf => NInf
  end.

(** The sign of a value, [None] for NaN; zero counts as [Eq]. *)
Definition fsign (x : fval) : option comparison :=
  match x with
  | Fin a => Some (Qsign a)
  | PInf => Some Gt
  | NInf => Some Lt
  | NaN => None
  end.

Definition fmul (x y : fval) : fval :=
  match x, y with
  | Fin a, Fin b => Fin (a * b)%Q
  | _, _ =>
      match fsign x, fsign y with
      | Some Eq, _ | _, Some Eq => NaN
      | Some Gt, Some Gt | Some Lt, Some Lt => PInf
      | Some Gt, Some Lt | Some Lt, Some Gt => NInf
      | None, _ | _, None => NaN
      end
  end.

Definition fdiv (x y : fval) : fval :=
  match x, y with
  | NaN, _ | _, NaN => NaN
  | Fin a, Fin b =>
      match Qsign b with
      | Eq => match Qsign a with Eq => NaN | Gt => PInf | Lt => NInf end
      | _ => Fin (a / b)%Q
      end
  | Fin _, _ => Fin 0
  | _, Fin b =>
      match fsign x, Qsign b with
      | Some Lt, Lt => PInf
      | Some Lt, _ => NInf
      | _, Lt => NInf
      | _, _ => PInf
      end
  | _, _ => NaN
  end.

(** [x <= y] on values that are not NaN. *)
Definition fle (x y : fval) : bool :=
  match x, y with
  | NaN, _ | _, NaN => false
  | NInf, _ | _, PInf => true
  | Fin a, Fin b => Qle_bool a b
  | _, _ => false
  end.

Definition is_nan (x : fval) : bool :=
  match x with NaN => true | _ => false end.

(** pandas' [sum] skips NaN cells and starts from zero. *)
Definition nansum (l : list fval) : fval :=
  foldl fadd (Fin 0) (List.filter (fun v => negb (is_nan v)) l).

(** pandas' [min] and [max] skip NaN cells; over no cell they give NaN. *)
Definition fmin2 (x y : fval) : fval := if fle x y then x else y.
Definition fmax2 (x y : fval) : fval := if fle x y then y else x.

Definition nanmin (l : list fval) : fval :=
  match List.filter (fun v => negb (is_nan v)) l with
  | [] => NaN
  | v :: r => foldl fmin2 v r
  end.

Definition nanmax (l : list fval) : fval :=
  match List.filter (fun v => negb (is_nan v)) l with
  | [] => NaN
  | v :: r => foldl fmax2 v r
  end.

(** ** Python values passed as arguments *)

Inductive pyval : Type :=
| PyNone
| PyBool (b : bool)
| PyInt (z : Z)
| PyFloat (f : fval)
| PyStr (s : string)
| PyList (l : list pyval).

(** A formatted message: its literal parts and the values formatted into
    it; [FmtRepr v n] is the [repr] of [v] cut to [n] characters. *)
Inductive piece : Type :=
| Lit (s : string)
| FmtVal (v : pyval)
| FmtRepr (v : pyval) (limit : nat)
| FmtSet (names : gset string).

Definition message : Type := list piece.

Inductive exn : Type :=
| TypeError (msg : message)
| ValueError (msg : message)
| OverflowError (msg : message)
| AttributeError (msg : message)
| KeyError (msg : message)
| RequestException.

(** *** The builtin [int]

    A string holds the UTF-8 encoding of a text.  [int] reads a text as
    CPython 3.11 does with its default settings: a character past the
    ASCII range that is a blank counts as a space and one that is a decimal
    digit (Unicode 14) counts as that digit; the literal is an optional
    sign and decimal digits, with single underscores allowed between two
    digits, inside optional white space; more than 4300 digits are
    refused. *)

Definition is_space (c : ascii) : bool :=
  let n := nat_of_ascii c in
  ((9 <=? n) && (n <=? 13) || (n =? 32))%nat.

Definition digit_of (c : ascii) : option Z :=
  let n := nat_of_ascii c in
  if ((48 <=? n) && (n <=? 57))%nat then Some (Z.of_nat n - 48) else None.

(** The payload of a continuation byte. *)
Definition continuation (c : ascii) : option N :=
  let n := N_of_ascii c in
  if ((128 <=? n) && (n <? 192))%N then Some (n - 128)%N else None.

(** Stands for a byte sequence that encodes no character. *)
Definition bad_char : N := 65533%N.

(** The characters of a text, as code points. *)
Fixpoint utf8_decode (s : string) : list N :=
  match s with
  | EmptyString => []
  | String c r =>
      let n := N_of_ascii c in
      if (n <? 128)%N then n :: utf8_decode r
      else if ((192 <=? n) && (n <? 224))%N then
        match r with
        | String c1 r1 =>
            match continuation c1 with
            | Some x => ((n - 192) * 64 + x)%N :: utf8_decode r1
            | None => bad_char :: utf8_decode r
            end
        | EmptyString => [bad_char]
        end
      else if ((224 <=? n) && (n <? 240))%N then
        match r with
        | String c1 (String c2 r2) =>
            match continuation c1, continuation c2 with
            | Some x, Some y => ((n - 224) * 4096 + x * 64 + y)%N :: utf8_decode r2
            | _, _ => bad_char :: utf8_decode r
            end
        | _ => [bad_char]
        end
      else if ((240 <=? n) && (n <? 248))%N then
        match r with
        | String c1 (String c2 (String c3 r3)) =>
            match continuation c1, continuation c2, continuation c3 with
            | Some x, Some y, Some z =>
                ((n - 240) * 262144 + x * 4096 + y * 64 + z)%N :: utf8_decode r3
            | _, _, _ => bad_char :: utf8_decode r
            end
        | _ => [bad_char]
        end
      else bad_char :: utf8_decode r
  end.

(** The blanks past the ASCII range. *)
Definition unicode_space (cp : N) : bool :=
  ((cp =? 133) || (cp =? 160) || (cp =? 5760)
   || (8192 <=? cp) && (cp <=? 8202)
   || (cp =? 8232) || (cp =? 8233) || (cp =? 8239) || (cp =? 8287)
   || (cp =? 12288))%N.

(** The zero of each run of ten decimal digits past the ASCII range. *)
Definition decimal_zeros : list N :=
  [
    1632; 1776; 1984; 2406; 2534; 2662; 2790; 2918; 3046; 3174; 3302;
    3430; 3558; 3664; 3792; 3872; 4160; 4240; 6112; 6160; 6470; 6608;
    6784; 6800; 6992; 7088; 7232; 7248; 42528; 43216; 43264; 43472;
    43504; 43600; 44016; 65296; 66720; 68912; 69734; 69872; 69942;
    70096; 70384; 70736; 70864; 71248; 71360; 71472; 71904; 72016;
    72784; 73040; 73120; 92768; 92864; 93008; 120782; 120792; 120802;
    120812; 120822; 123200; 123632; 125264; 130032 ]%N.

Definition unicode_decimal (cp : N) : option N :=
  match List.find (fun z => ((z <=? cp) && (cp <? z + 10))%N) decimal_zeros with
  | Some z => Some (cp - z)%N
  | None => None
  end.

(** What [int] reads for one character: itself below 127, a space for a
    blank, the ASCII digit for a decimal digit, and a question mark, which
    no literal contains, for anything else. *)
Definition to_ascii (cp : N) : ascii :=
  if (cp <? 127)%N then ascii_of_N cp
  else if unicode_space cp then " "%char
  else match unicode_decimal cp with
       | Some d => ascii_of_N (48 + d)
       | None => "?"%char
       end.

Definition transform (s : string) : string :=
  string_of_list_ascii (map to_ascii (utf8_decode s)).

Fixpoint lstrip (s : string) : string :=
  match s with
  | String c r => if is_space c then lstrip r else s
  | EmptyString => s
  end.

Fixpoint all_space (s : string) : bool :=
  match s with
  | String c r => is_space c && all_space r
  | EmptyString => true
  end.

(** [sys.get_int_max_str_digits()] *)
Definition max_str_digits : nat := 4300.

(** Why [int] refuses a string: it is no literal, or its run of digits is
    longer than [max_str_digits]. *)
Inductive int_error : Type :=
| Invalid
| TooLong (digits : nat).

(** The scan of the run of digits and underscores: the number of digits, the
    value and what follows the run; [None] when two underscores meet or the
    run ends with one.  [prev_underscore] tells whether the previous
    character was an underscore. *)
Fixpoint scan (s : string) (prev_underscore : bool) (digits : nat) (acc : Z)
    : option (nat * Z * string) :=
  match s with
  | String c r =>
      match digit_of c with
      | Some d => scan r false (S digits) (10 * acc + d)
      | None =>
          if Ascii.eqb c "_" then
            if prev_underscore then None else scan r true digits acc
          else if prev_underscore then None else Some (digits, acc, s)
      end
  | EmptyString => if prev_underscore then None else Some (digits, acc, s)
  end.

(** After the sign: no leading underscore, the run, the limit on its
    digits, at least one digit, then nothing but white space. *)
Definition int_unsigned (s : string) : int_error + Z :=
  match s with
  | String "_" _ => inl Invalid
  | _ =>
      match scan s false 0 0 with
      | None => inl Invalid
      | Some (digits, acc, rest) =>
          if (max_str_digits <? digits)%nat then inl (TooLong digits)
          else if (digits =? 0)%nat then inl Invalid
          else if all_space rest then inr acc
          else inl Invalid
      end
  end.

Definition int_of_string (s : string) : int_error + Z :=
  match lstrip (transform s) with
  | String "-" r =>
      match int_unsigned r with
      | inr z => inr (- z)
      | inl e => inl e
      end
  | String "+" r => int_unsigned r
  | r => int_unsigned r
  end.

(** Truncation toward zero. *)
Definition Qtrunc (q : Q) : Z := Z.quot (Qnum q) (Z.pos (Qden q)).

Definition py_int (v : pyval) : exn + Z :=
  match v with
  | PyInt z => inr z
  | PyBool b => inr (if b then 1 else 0)
  | PyFloat (Fin q) => inr (Qtrunc q)
  | PyFloat NaN => inl (ValueError [Lit "cannot convert float NaN to integer"])
  | PyFloat _ => inl (OverflowError [Lit "cannot convert float infinity to integer"])
  | PyStr s =>
      match int_of_string s with
      | inr z => inr z
      | inl Invalid =>
          inl (ValueError [Lit "invalid literal for int() with base 10: "; FmtRepr v 200])
      | inl (TooLong digits) =>
          inl (ValueError
                 [Lit "Exceeds the limit (4300 digits) for integer string conversion: value has ";
                  FmtVal (PyInt (Z.of_nat digits));
                  Lit " digits; use sys.set_int_max_str_digits() to increase the limit"])
      end
  | PyNone =>
      inl (TypeError [Lit "int() argument must be a string, a bytes-like object or a real number, not 'NoneType'"])
  | PyList _ =>
      inl (TypeError [Lit "int() argument must be a string, a bytes-like object or a real number, not 'list'"])
  end.

(** [v == True] and [v == False] for an argument [v]. *)
Definition py_eq_bool (v : pyval) (b : bool) : bool :=
  match v with
  | PyBool c => Bool.eqb c b
  | PyInt z => Z.eqb z (if b then 1 else 0)
  | PyFloat (Fin q) => Qeq_bool q (if b then 1 else 0)
  | _ => false
  end.

(** ** Tables *)

(** A row of the productivity table, with the columns the methods read. *)
Record row : Type := mkRow {
  Entity : string;
  Year : Z;
  crop_output_quantity : fval;
  animal_output_quantity : fval;
  fish_output_quantity : fval;
  fertilizer_quantity : fval;
  output_quantity : fval;
  irrigation_quantity : fval;
  ag_land_quantity : fval;
  tfp : fval
}.

Definition table : Type := list row.

(** A row of the boundaries table; the geometry is kept opaque. *)
Record georow : Type := mkGeo {
  name : string;
  geometry : Z
}.

Definition geotable : Type := list georow.

(** The three columns of the frame handed to the area chart, by year. *)
Record output_row : Type := mkOut {
  out_year : Z;
  out_crop : fval;
  out_animal : fval;
  out_fish : fval
}.

(** A plotted cell: a value of the table, or its natural logarithm, which is
    kept symbolic. *)
Inductive cell : Type :=
| Plain (v : fval)
| Log (v : fval).

(** ** Effects *)

Inductive event : Type :=
| Print (msg : message)
| HttpGet (url : string) (timeout : Z)
| WriteFile (path : string)
| AreaPlot (title : string) (data : list output_row)
| LinePlot (xs : list Z) (ys : list fval) (label : string)
| Relplot (x y : string) (points : list (cell * cell * fval * fval))
| GeoPlot (column : string) (data : list (georow * row)) (vmin vmax : fval)
| Subplots
| ArimaFit (endog : list fval) (order : nat * nat * nat)
| ArimaPredict (start stop : nat)
| AxisPlot (xs : list Z) (ys : list fval) (color : nat) (linestyle : string)
    (label : string)
| AxisSetTitle (title : string)
| AxisLegend (labels : list string)
| Show.

(** The fields of an [Analysis] object. *)
Record Analysis : Type := mkAnalysis {
  dataframe : option table;
  geodata : option geotable;
  merge_dict : gmap string string
}.

(** The object together with the cache file [downloads/Dataset.csv]. *)
Record state : Type := mkState {
  self : Analysis;
  cache_file : option table
}.

(** [__init__] *)
Definition init : Analysis :=
  {| dataframe := None; geodata := None; merge_dict := ∅ |}.

Record result (A : Type) : Type := mkResult {
  trace : list event;
  final : state;
  outcome : exn + A
}.

Arguments mkResult {A} _ _ _.
Arguments trace {A} _.
Arguments final {A} _.
Arguments outcome {A} _.

Definition M (A : Type) : Type := state -> result A.

Definition ret {A} (a : A) : M A :=
  fun st => mkResult [] st (inr a).

Definition bind {A B} (m : M A) (k : A -> M B) : M B :=
  fun st =>
    let r := m st in
    match outcome r with
    | inl e => mkResult (trace r) (final r) (inl e)
    | inr a =>
        let r' := k a (final r) in
        mkResult (trace r ++ trace r') (final r') (outcome r')
    end.

Definition raise {A} (e : exn) : M A :=
  fun st => mkResult [] st (inl e).

Definition emit (ev : event) : M unit :=
  fun st => mkResult [ev] st (inr tt).

Definition get_self : M Analysis :=
  fun st => mkResult [] st (inr (self st)).

Definition put_self (a : Analysis) : M unit :=
  fun st => mkResult [] (mkState a (cache_file st)) (inr tt).

Definition get_cache_file : M (option table) :=
  fun st => mkResult [] st (inr (cache_file st)).

Definition put_cache_file (t : table) : M unit :=
  fun st => mkResult [] (mkState (self st) (Some t)) (inr tt).

(** [try: m except <handled> ...: raise h e]; an exception that [handler]
    maps to [None] is not caught. *)
Definition try_except {A} (m : M A) (handler : exn -> option exn) : M A :=
  fun st =>
    let r := m st in
    match outcome r with
    | inl e =>
        match handler e with
        | Some e' => mkResult (trace r) (final r) (inl e')
        | None => r
        end
    | inr _ => r
    end.

Definition lift {A} (x : exn + A) : M A :=
  match x with
  | inl e => raise e
  | inr a => ret a
  end.

Notation "x <- m ;; k" := (bind m (fun x => k))
  (at level 100, m at next level, right associativity).
Notation "m ;;; k" := (bind m (fun _ => k))
  (at level 100, right associativity).

Fixpoint for_each {A} (l : list A) (body : A -> M unit) : M unit :=
  match l with
  | [] => ret tt
  | x :: r => body x ;;; for_each r body
  end.

(** [self.dataframe[...]]: subscripting [None] raises a type error. *)
Definition dataframe_subscript : M table :=
  a <- get_self ;;
  match dataframe a with
  | Some df => ret df
  | None => raise (TypeError [Lit "'NoneType' object is not subscriptable"])
  end.

(** [self.dataframe.attr]: an attribute of [None] does not exist. *)
Definition dataframe_attribute (attr : string) : M table :=
  a <- get_self ;;
  match dataframe a with
  | Some df => ret df
  | None =>
      raise (AttributeError [Lit "'NoneType' object has no attribute '"; Lit attr; Lit "'"])
  end.

Definition geodata_subscript : M geotable :=
  a <- get_self ;;
  match geodata a with
  | Some g => ret g
  | None => raise (TypeError [Lit "'NoneType' object is not subscriptable"])
  end.

Definition set_dataframe (df : table) : M unit :=
  a <- get_self ;;
  put_self {| dataframe := Some df; geodata := geodata a; merge_dict := merge_dict a |}.

Definition set_geodata (g : geotable) : M unit :=
  a <- get_self ;;
  put_self {| dataframe := dataframe a; geodata := Some g; merge_dict := merge_dict a |}.

Definition set_merge_dict (d : gmap string string) : M unit :=
  a <- get_self ;;
  put_self {| dataframe := dataframe a; geodata := geodata a; merge_dict := d |}.

(** ** pandas operations on the tables *)

Definition isin (s : string) (values : list string) : bool :=
  existsb (String.eqb s) values.

(** [Series.unique()]: the distinct values in order of first appearance. *)
Fixpoint unique (l : list string) : list string :=
  match l with
  | [] => []
  | x :: r => x :: List.filter (fun y => negb (String.eqb x y)) (unique r)
  end.

(** The group keys of [groupby]: distinct and ascending. *)
Fixpoint insert_key (y : Z) (l : list Z) : list Z :=
  match l with
  | [] => [y]
  | x :: r =>
      if y <? x then y :: l
      else if y =? x then l
      else x :: insert_key y r
  end.

Definition group_keys (l : list Z) : list Z := foldr insert_key [] l.

Definition rows_of_year (y : Z) (df : table) : table :=
  List.filter (fun r => Year r =? y) df.

Definition rows_of_entity (s : string) (df : table) : table :=
  List.filter (fun r => String.eqb (Entity r) s) df.

Fixpoint max_list (l : list Z) : option Z :=
  match l with
  | [] => None
  | x :: r => Some (match max_list r with Some m => Z.max x m | None => x end)
  end.

Fixpoint join (sep : string) (l : list string) : string :=
  match l with
  | [] => ""
  | [x] => x
  | x :: r => (x ++ sep ++ join sep r)%string
  end.

(** ** [download_save_data] *)

Definition file_path : string := "downloads/Dataset.csv".

Definition url : string :=
  "https://raw.githubusercontent.com/owid/owid-datasets/master/datasets/Agricultural%20total%20factor%20productivity%20(USDA)/Agricultural%20total%20factor%20productivity%20(USDA).csv".

Definition entities_to_remove : list string :=
  [ "Asia"; "Caribbean"; "Central Africa"; "Central America"; "Central Asia";
    "Central Europe"; "French Guiana"; "Developed Asia"; "Developed countries";
    "East Africa"; "Eastern Europe"; "Europe"; "High income"; "Horn of Africa";
    "Latin America and the Caribbean"; "Least developed countries";
    "Low income"; "Upper-middle income"; "Lower-middle income"; "North Africa";
    "North Macedonia"; "North America"; "Northeast Asia"; "Northern Europe";
    "Oceania"; "West Africa"; "West Asia"; "Western Europe"; "World"; "Pacific";
    "Polynesia"; "South Asia"; "Southeast Asia"; "Southern Africa";
    "Southern Europe"; "Sub-Saharan Africa" ].

(** [df[~df["Entity"].isin(entities_to_remove)]] *)
Definition remove_aggregates (df : table) : table :=
  List.filter (fun r => negb (isin (Entity r) entities_to_remove)) df.

(** The file is read as the table it holds.  [naturalearth_lowres] is the
    bundled boundaries table and [response] what the request to [url]
    yields: the table served, or the exception of a failed request. *)
Definition download_save_data (naturalearth_lowres : geotable)
    (response : exn + table) : M unit :=
  set_geodata naturalearth_lowres ;;;
  cached <- get_cache_file ;;
  match cached with
  | None =>
      emit (HttpGet url 40) ;;;
      content <- lift response ;;
      emit (WriteFile file_path) ;;;
      put_cache_file content ;;;
      set_dataframe content ;;;
      emit (Print [Lit "The file has been stored in the downloads directory with the name Dataset.csv"])
  | Some content =>
      set_dataframe content ;;;
      set_dataframe content ;;;
      emit (Print [Lit "The path and file already exist"])
  end ;;;
  df <- dataframe_subscript ;;
  set_dataframe (remove_aggregates df).

(** ** [countries_list] *)

Definition countries_list : M (list string) :=
  df <- dataframe_subscript ;;
  ret (unique (map Entity df)).

(** ** [plot_output_area] *)

Definition columns_to_plot (r : row) : output_row :=
  mkOut (Year r) (crop_output_quantity r) (animal_output_quantity r)
    (fish_output_quantity r).

(** [df.groupby("Year").sum()[columns_to_plot]] *)
Definition groupby_year_sum (df : table) : list output_row :=
  map (fun y =>
         let g := rows_of_year y df in
         mkOut y (nansum (map crop_output_quantity g))
           (nansum (map animal_output_quantity g))
           (nansum (map fish_output_quantity g)))
      (group_keys (map Year df)).

(** [df_plot.sum(axis=1)] at one row. *)
Definition row_sum (r : output_row) : fval :=
  nansum [out_crop r; out_animal r; out_fish r].

(** [df_plot.div(df_plot.sum(axis=1), axis=0) * 100] at one row. *)
Definition normalize_row (r : output_row) : output_row :=
  let s := row_sum r in
  mkOut (out_year r)
    (fmul (fdiv (out_crop r) s) (Fin 100))
    (fmul (fdiv (out_animal r) s) (Fin 100))
    (fmul (fdiv (out_fish r) s) (Fin 100)).

Definition is_world (entity : option string) : bool :=
  match entity with
  | None => true
  | Some e => String.eqb e "World"
  end.

(** The frame before normalisation, with the title of the chart. *)
Definition output_area_frame (entity : option string) : M (list output_row * string) :=
  match entity with
  | Some e =>
      if is_world entity then
        df <- dataframe_attribute "groupby" ;;
        ret (groupby_year_sum df, "World Output")
      else
        df <- dataframe_subscript ;;
        let df_plot := map columns_to_plot (rows_of_entity e df) in
        match df_plot with
        | [] => raise (ValueError [Lit "Entity '"; Lit e; Lit "' not found"])
        | _ => ret (df_plot, (e ++ " Output")%string)
        end
  | None =>
      df <- dataframe_attribute "groupby" ;;
      ret (groupby_year_sum df, "World Output")
  end.

Definition plot_output_area (entity : option string) (normalize : pyval) : M unit :=
  p <- output_area_frame entity ;;
  let df_plot :=
    match normalize with
    | PyBool true => map normalize_row (fst p)
    | _ => fst p
    end in
  emit (AreaPlot (snd p) df_plot) ;;;
  emit Show.

(** ** [compare_output_for_countries] *)

Fixpoint all_str (l : list pyval) : option (list string) :=
  match l with
  | [] => Some []
  | PyStr s :: r => cons s <$> all_str r
  | _ :: _ => None
  end.

(** The argument as a list of names, when it is a string or a list of
    strings. *)
Definition country_names (countries : pyval) : option (list string) :=
  match countries with
  | PyStr s => Some [s]
  | PyList l => all_str l
  | _ => None
  end.

(** The series drawn for [country]: by year, the sum of the row totals. *)
Definition total_output (countries : list string) (df : table)
    (country : string) : list (Z * fval) :=
  let filtered_data := List.filter (fun r => isin (Entity r) countries) df in
  let g := rows_of_entity country filtered_data in
  map (fun y => (y, nansum (map (fun r => row_sum (columns_to_plot r))
                              (rows_of_year y g))))
      (group_keys (map Year g)).

Definition compare_output_for_countries (countries : pyval) : M unit :=
  match country_names countries with
  | None => raise (TypeError [Lit "Countries must be a string or a list of strings."])
  | Some names =>
      df <- dataframe_subscript ;;
      let invalid_countries : gset string :=
        list_to_set names ∖ list_to_set (unique (map Entity df)) in
      if decide (invalid_countries = ∅) then
        for_each names (fun country =>
          let country_data := total_output names df country in
          emit (LinePlot (map fst country_data) (map snd country_data) country)) ;;;
        emit Show
      else
        raise (ValueError [Lit "The following countries are not in the dataset: ";
                           FmtSet invalid_countries])
  end.

(** ** [gapminder] *)

(** [try: int(year) except ValueError: raise TypeError(...)] *)
Definition year_as_int (year : pyval) : M Z :=
  try_except (lift (py_int year))
    (fun e => match e with
              | ValueError _ => Some (TypeError [Lit "Year must be an integer"])
              | _ => None
              end).

Definition gapminder (year log_scale : pyval) : M unit :=
  y <- year_as_int year ;;
  df <- dataframe_subscript ;;
  let filtered_data := rows_of_year y df in
  (if py_eq_bool log_scale true then
     emit (Relplot "fertilizer_quantity_logs" "output_quantity_logs"
             (map (fun r => (Log (fertilizer_quantity r), Log (output_quantity r),
                             irrigation_quantity r, ag_land_quantity r))
                  filtered_data))
   else if py_eq_bool log_scale false then
     emit (Relplot "fertilizer_quantity" "output_quantity"
             (map (fun r => (Plain (fertilizer_quantity r), Plain (output_quantity r),
                             irrigation_quantity r, ag_land_quantity r))
                  filtered_data))
   else raise (TypeError [Lit "log_scale parameter must be a Boolean"])) ;;;
  emit Show.

(** ** [choropleth] *)

(** [frame is not b] for a frame and a bool: two distinct objects. *)
Definition frame_is_not_bool (frame : table) (b : bool) : bool := true.

(** The body of the [try] that is meant to test the year. *)
Definition year_test (y : Z) : M bool :=
  df <- dataframe_subscript ;;
  df' <- dataframe_attribute "empty" ;;
  ret (frame_is_not_bool (rows_of_year y df) (bool_decide (df' = []))).

Definition rename_dict : gmap string string :=
  <["Dem. Rep. Congo" := "Democratic Republic of Congo"]>
  (<["Bosnia and Herz." := "Bosnia and Herzegovina"]>
  (<["eSwatini" := "Eswatini"]>
  (<["Solomon Is." := "Solomon Islands"]>
  (<["Central African Rep." := "Central African Republic"]>
  (<["United States of America" := "United States"]> ∅))))).

(** [Series.replace(d)] at one name. *)
Definition replace_name (d : gmap string string) (g : georow) : georow :=
  mkGeo (default (name g) (d !! name g)) (geometry g).

(** [geodata.merge(df, how="left", left_on="name", right_on="Entity")]: a
    boundary row without a match keeps one row with empty table columns. *)
Definition merge_left (geo : geotable) (df : table) : list (georow * option row) :=
  flat_map (fun g =>
              match rows_of_entity (name g) df with
              | [] => [(g, None)]
              | rs => map (fun r => (g, Some r)) rs
              end) geo.

(** [merged[merged["Year"] == year]] *)
Definition merged_of_year (y : Z) (merged : list (georow * option row))
    : list (georow * row) :=
  flat_map (fun p =>
              match snd p with
              | Some r => if Year r =? y then [(fst p, r)] else []
              | None => []
              end) merged.

(** [filtered_data.plot(column=..., vmin=..., vmax=...)].  The boundaries
    are in geographic coordinates, so the call sets the aspect of the map
    from the bounds of the rows it is given; a frame without row has no
    bounds and the call fails there. *)
Definition geo_plot (column : string) (data : list (georow * row))
    (vmin vmax : fval) : M unit :=
  emit (GeoPlot column data vmin vmax) ;;;
  match data with
  | [] => raise (ValueError [Lit "aspect must be finite and positive"])
  | _ :: _ => ret tt
  end.

Definition choropleth (year : pyval) : M unit :=
  y <- year_as_int year ;;
  try_except (year_test y)
    (fun _ => Some (ValueError [Lit "Year is not present in the Dataset"])) ;;;
  set_merge_dict rename_dict ;;;
  a <- get_self ;;
  geo <- geodata_subscript ;;
  set_geodata (map (replace_name (merge_dict a)) geo) ;;;
  geo' <- geodata_subscript ;;
  df <- dataframe_subscript ;;
  let merged := merge_left geo' df in
  let filtered_data := merged_of_year y merged in
  let vmin := nanmin (map tfp df) in
  let vmax := nanmax (map tfp df) in
  geo_plot "tfp" filtered_data vmin vmax ;;;
  emit Show.

(** ** [predict_tfp] *)

(** [range(a, b)] *)
Definition py_range (a b : Z) : list Z := seqZ a (b - a).

(** [enumerate(l)] *)
Definition enumerate {A} (l : list A) : list (nat * A) :=
  zip (seq 0 (length l)) l.

(** [country in available_countries]: only a string equals a name. *)
Definition py_in (country : pyval) (available : list string) : option string :=
  match country with
  | PyStr s => if isin s available then Some s else None
  | _ => None
  end.

(** The loop that fills [valid_countries]. *)
Fixpoint check_countries (available : list string) (chosen : list pyval)
    (valid_countries : list string) : M (list string) :=
  match chosen with
  | [] => ret valid_countries
  | country :: rest =>
      match py_in country available with
      | Some s => check_countries available rest (valid_countries ++ [s])
      | None =>
          emit (Print [FmtVal country;
                       Lit " is not available in the dataset and will be ignored."]) ;;;
          check_countries available rest valid_countries
      end
  end.

(** [arima_fit.predict(start=..., end=...)]: the levels a fitted model
    predicts at the time indices from [start] to [end], both included. *)
Definition predict (fitted : nat -> fval) (start stop : nat) : list fval :=
  map fitted (seq start (stop + 1 - start)).

Section Forecast.

(** The statistical routine: [ARIMA(endog, order).fit()] gives a fitted
    model, of which the program uses the level predicted at a time index;
    these levels are left open.  The routine is taken to return a model for
    every series: a series it would refuse is not represented. *)
Variable arima : list fval -> nat * nat * nat -> nat -> fval.

(** One turn of the plotting loop. *)
Definition plot_country (df : table) (ic : nat * string) : M unit :=
  let i := fst ic in
  let country := snd ic in
  let data := rows_of_entity country df in
  emit (AxisPlot (map Year data) (map tfp data) i "-"
          (country ++ " actual")%string) ;;;
  emit (ArimaFit (map tfp data) (1, 2, 2)%nat) ;;;
  emit (ArimaPredict (length data) (length data + 27)%nat) ;;;
  let arima_fit := arima (map tfp data) (1, 2, 2)%nat in
  let arima_pred := predict arima_fit (length data) (length data + 27)%nat in
  match max_list (map Year data) with
  | Some m =>
      emit (AxisPlot (py_range (m + 1) (m + 29)) arima_pred i "--"
              (country ++ " predicted")%string)
  | None =>
      raise (TypeError [Lit "'float' object cannot be interpreted as an integer"])
  end.

Definition predict_tfp (countries : pyval) : M unit :=
  match countries with
  | PyList [] => emit (Print [Lit "Please specify at least one country."])
  | PyList l =>
      let chosen_countries := take 3 l in
      available_countries <- countries_list ;;
      valid_countries <- check_countries available_countries chosen_countries [] ;;
      match valid_countries with
      | [] =>
          raise (ValueError
                   [Lit "None of the countries listed are available. Available countries are: ";
                    Lit (join ", " available_countries)])
      | _ =>
          emit Subplots ;;;
          df <- dataframe_subscript ;;
          for_each (enumerate valid_countries) (plot_country df) ;;;
          emit (AxisSetTitle
                  ("Actual and Predicted TFP for " ++ join ", " valid_countries)%string) ;;;
          emit (AxisLegend
                  (flat_map (fun c => [c ++ " actual"; c ++ " predicted"]%string)
                     valid_countries)) ;;;
          emit Show
      end
  | _ => raise (TypeError [Lit "Input must be a list of countries."])
  end.

End Forecast.

(** ** [plot_quantity_correlations]: the mask of the heat map *)

(** [np.zeros_like(quantity_corr, dtype=bool)] for [n] columns. *)
Definition zeros_like (n : nat) : list (list bool) :=
  replicate n (replicate n false).

(** [np.triu_indices_from(mask)]: the cells on and above the diagonal, row
    by row. *)
Definition triu_indices_from (n : nat) : list (nat * nat) :=
  flat_map (fun i => map (fun j => (i, j)) (seq i (n - i))) (seq 0 n).

(** [mask[indices] = True] *)
Definition set_true (mask : list (list bool)) (indices : list (nat * nat))
    : list (list bool) :=
  foldl (fun m ij => alter (fun row => <[snd ij := true]> row) (fst ij) m)
    mask indices.

(** The mask handed to the heat map: a cell that is [true] is hidden. *)
Definition correlation_mask (n : nat) : list (list bool) :=
  set_true (zeros_like n) (triu_indices_from n).

(** ** Vocabulary of the statements *)

(** The console notice for a name that is not in the table. *)
Definition notice (country : pyval) : event :=
  Print [FmtVal country; Lit " is not available in the dataset and will be ignored."].

(** Among [chosen], the names found in [available], in order. *)
Fixpoint accepted (available : list string) (chosen : list pyval) : list string :=
  match chosen with
  | [] => []
  | c :: r =>
      match py_in c available with
      | Some s => s :: accepted available r
      | None => accepted available r
      end
  end.

(** Among [chosen], the values not found in [available], in order. *)
Fixpoint rejected (available : list string) (chosen : list pyval) : list pyval :=
  match chosen with
  | [] => []
  | c :: r =>
      match py_in c available with
      | Some _ => rejected available r
      | None => c :: rejected available r
      end
  end.

(** The forecast drawn for a country: the values and the years they are
    plotted at. *)
Definition forecast_of (arima : list fval -> nat * nat * nat -> nat -> fval)
    (df : table) (country : string) : list fval :=
  let data := rows_of_entity country df in
  predict (arima (map tfp data) (1, 2, 2)%nat) (length data) (length data + 27)%nat.

(** The calls made for the [i]-th valid country whose last year is [m]. *)
Definition country_events (arima : list fval -> nat * nat * nat -> nat -> fval)
    (df : table) (m : Z) (ic : nat * string) : list event :=
  let data := rows_of_entity (snd ic) df in
  [ AxisPlot (map Year data) (map tfp data) (fst ic) "-" (snd ic ++ " actual")%string;
    ArimaFit (map tfp data) (1, 2, 2)%nat;
    ArimaPredict (length data) (length data + 27)%nat;
    AxisPlot (seqZ (m + 1) 28) (forecast_of arima df (snd ic)) (fst ic) "--"
      (snd ic ++ " predicted")%string ].

(** The last observed year of an entity; 0 when it has no row. *)
Definition last_year (df : table) (country : string) : Z :=
  default 0 (max_list (map Year (rows_of_entity country df))).

(** A computation that leaves the object and the cache file as they were,
    whatever it returns or raises. *)
Definition read_only {A} (m : M A) : Prop :=
  forall st, final (m st) = st.

(** The line drawn for a country taken alone. *)
Definition country_line (df : table) (c : string) : list event :=
  [LinePlot (map fst (total_output [c] df c)) (map snd (total_output [c] df c)) c].

(** [mask[i, j]], when the cell exists. *)
Definition mask_cell (mask : list (list bool)) (i j : nat) : option bool :=
  match mask !! i with
  | Some row => row !! j
  | None => None
  end.



(** ** A small table and a stand-in forecaster to run the methods on *)

Definition sample_row (e : string) (y : Z) (crop animal fish index : Q) : row :=
  mkRow e y (Fin crop) (Fin animal) (Fin fish) (Fin 1) (Fin 2) (Fin 3) (Fin 4)
    (Fin index).

Definition sample_raw : table :=
  [ sample_row "Canada" 2000 1 2 1 100;
    sample_row "World" 2000 5 5 5 90;
    sample_row "Canada" 2001 0 0 0 104;
    sample_row "France" 2000 3 3 2 95 ].

Definition sample_geo : geotable :=
  [ mkGeo "Canada" 1; mkGeo "United States of America" 2; mkGeo "France" 3 ].

(** A session whose cache file exists, before and after acquisition. *)
Definition sample_start : state := mkState init (Some sample_raw).

Definition sample_state : state :=
  final (download_save_data sample_geo (inl RequestException) sample_start).

Definition sample_clean : table := remove_aggregates sample_raw.

Definition four_names : list pyval :=
  [PyStr "Atlantis"; PyStr "Mu"; PyStr "Lemuria"; PyStr "Canada"].

Definition two_names : list pyval := [PyStr "Canada"; PyStr "Atlantis"].

(** The year 2000 in fullwidth digits (U+FF12, U+FF10, U+FF10, U+FF10),
    and the year 2000 after a file separator (code 28). *)
Definition fullwidth_2000 : string :=
  string_of_list_ascii
    (map ascii_of_nat
       [239; 188; 146; 239; 188; 144; 239; 188; 144; 239; 188; 144]%nat).

Definition separator_2000 : string := String (ascii_of_nat 28) "2000".

(** Predicts the last observation at every time index. *)
Definition naive_forecast (endog : list fval) (order : nat * nat * nat)
    (index : nat) : fval :=
  List.last endog NaN.

(** * Properties *)

(** ** The monad *)

Lemma bind_ok {A B} (m : M A) (k : A -> M B) st a :
  outcome (m st) = inr a ->
  bind m k st =
    mkResult (trace (m st) ++ trace (k a (final (m st))))
      (final (k a (final (m st)))) (outcome (k a (final (m st)))).
Proof. intros H. unfold bind. rewrite H. reflexivity. Qed.

Lemma bind_err {A B} (m : M A) (k : A -> M B) st e :
  outcome (m st) = inl e ->
  bind m k st = mkResult (trace (m st)) (final (m st)) (inl e).
Proof. intros H. unfold bind. rewrite H. reflexivity. Qed.

Lemma bind_run {A B} (m : M A) (k : A -> M B) st t st' a :
  m st = mkResult t st' (inr a) ->
  bind m k st =
    mkResult (t ++ trace (k a st')) (final (k a st')) (outcome (k a st')).
Proof. intros H. unfold bind. rewrite H. reflexivity. Qed.

(** A step without events. *)
Lemma bind_pure {A B} (m : M A) (k : A -> M B) st st' a :
  m st = mkResult [] st' (inr a) ->
  bind m k st = k a st'.
Proof. intros H. unfold bind. rewrite H. simpl. destruct (k a st'). reflexivity. Qed.

Lemma bind_raise {A B} (m : M A) (k : A -> M B) st t st' e :
  m st = mkResult t st' (inl e) ->
  bind m k st = mkResult t st' (inl e).
Proof. intros H. unfold bind. rewrite H. reflexivity. Qed.

Lemma emit_run ev st : emit ev st = mkResult [ev] st (inr tt).
Proof. reflexivity. Qed.

Lemma dataframe_subscript_some st df :
  dataframe (self st) = Some df ->
  dataframe_subscript st = mkResult [] st (inr df).
Proof. intros H. unfold dataframe_subscript, bind. simpl. rewrite H. reflexivity. Qed.

Lemma dataframe_attribute_some attr st df :
  dataframe (self st) = Some df ->
  dataframe_attribute attr st = mkResult [] st (inr df).
Proof. intros H. unfold dataframe_attribute, bind. simpl. rewrite H. reflexivity. Qed.

Lemma countries_list_some st df :
  dataframe (self st) = Some df ->
  countries_list st = mkResult [] st (inr (unique (map Entity df))).
Proof.
  intros H. unfold countries_list.
  rewrite (bind_ok _ _ st df) by (rewrite (dataframe_subscript_some st df H); reflexivity).
  rewrite (dataframe_subscript_some st df H). reflexivity.
Qed.

(** A loop whose body only emits events emits them in order. *)
Lemma for_each_emits {A} (body : A -> M unit) (evs : A -> list event) l st :
  (forall x, In x l -> body x st = mkResult (evs x) st (inr tt)) ->
  for_each l body st = mkResult (flat_map evs l) st (inr tt).
Proof.
  induction l as [|x l IH]; intros Hbody; [reflexivity|].
  simpl. unfold bind. rewrite (Hbody x) by (left; reflexivity). simpl.
  rewrite IH by (intros y Hy; apply Hbody; right; exact Hy).
  reflexivity.
Qed.

(** ** Lists and names *)

Lemma isin_In s l : isin s l = true <-> In s l.
Proof.
  unfold isin. rewrite existsb_exists. split.
  - intros [x [Hx Heq]]. apply String.eqb_eq in Heq. subst. exact Hx.
  - intros H. exists s. split; [exact H | apply String.eqb_refl].
Qed.

Lemma filter_idempotent {A} (f : A -> bool) l :
  List.filter f (List.filter f l) = List.filter f l.
Proof.
  induction l as [|x l IH]; [reflexivity|].
  simpl. destruct (f x) eqn:E; simpl; [rewrite E, IH|]; auto.
Qed.

Lemma unique_In s l : In s (unique l) <-> In s l.
Proof.
  induction l as [|x l IH]; [reflexivity|]. simpl.
  rewrite filter_In, IH. split.
  - intros [H | [H _]]; auto.
  - intros [H | H]; [left; exact H|].
    destruct (String.eqb x s) eqn:E.
    + apply String.eqb_eq in E. left. exact E.
    + right. split; [exact H | reflexivity].
Qed.

Lemma unique_NoDup l : List.NoDup (unique l).
Proof.
  induction l as [|x l IH]; simpl; constructor.
  - rewrite filter_In. intros [_ H]. rewrite String.eqb_refl in H. discriminate.
  - apply List.NoDup_filter. exact IH.
Qed.

Lemma remove_aggregates_In r df :
  In r (remove_aggregates df) <-> In r df /\ ~ In (Entity r) entities_to_remove.
Proof.
  unfold remove_aggregates. rewrite filter_In, negb_true_iff.
  rewrite <- isin_In. destruct (isin (Entity r) entities_to_remove); intuition congruence.
Qed.

Lemma remove_aggregates_sublist df : sublist (remove_aggregates df) df.
Proof.
  unfold remove_aggregates. induction df as [|x df IH]; [constructor|].
  cbn [List.filter].
  destruct (negb (isin (Entity x) entities_to_remove)); constructor; exact IH.
Qed.

Lemma remove_aggregates_idempotent df :
  remove_aggregates (remove_aggregates df) = remove_aggregates df.
Proof. apply filter_idempotent. Qed.

Lemma set_dataframe_run df st :
  set_dataframe df st =
    mkResult []
      (mkState {| dataframe := Some df; geodata := geodata (self st);
                  merge_dict := merge_dict (self st) |} (cache_file st))
      (inr tt).
Proof. reflexivity. Qed.

Lemma set_geodata_state g st :
  set_geodata g st =
    mkResult []
      (mkState {| dataframe := dataframe (self st); geodata := Some g;
                  merge_dict := merge_dict (self st) |} (cache_file st))
      (inr tt).
Proof. reflexivity. Qed.

Lemma get_cache_file_run st :
  get_cache_file st = mkResult [] st (inr (cache_file st)).
Proof. reflexivity. Qed.

Lemma put_cache_file_run t st :
  put_cache_file t st = mkResult [] (mkState (self st) (Some t)) (inr tt).
Proof. reflexivity. Qed.

(** The last step of acquisition, from a state whose table is [content]. *)
Lemma clean_step_run content geo d c :
  (df <- dataframe_subscript ;; set_dataframe (remove_aggregates df))
    (mkState {| dataframe := Some content; geodata := geo; merge_dict := d |} c)
  = mkResult []
      (mkState {| dataframe := Some (remove_aggregates content); geodata := geo;
                  merge_dict := d |} c)
      (inr tt).
Proof.
  rewrite (bind_pure _ _ _ _ _
             (dataframe_subscript_some
                (mkState {| dataframe := Some content; geodata := geo; merge_dict := d |} c)
                content eq_refl)).
  reflexivity.
Qed.

(** Acquisition when the cache file exists. *)
Lemma download_save_data_hit_run geo response st raw :
  cache_file st = Some raw ->
  download_save_data geo response st =
    mkResult [Print [Lit "The path and file already exist"]]
      (mkState {| dataframe := Some (remove_aggregates raw);
                  geodata := Some geo;
                  merge_dict := merge_dict (self st) |} (Some raw))
      (inr tt).
Proof.
  intros Hc. unfold download_save_data.
  rewrite (bind_pure _ _ st _ _ (set_geodata_state geo st)).
  set (st1 := mkState {| dataframe := dataframe (self st); geodata := Some geo;
                         merge_dict := merge_dict (self st) |} (cache_file st)).
  rewrite (bind_pure _ _ st1 st1 _ (get_cache_file_run st1)).
  change (cache_file st1) with (cache_file st). rewrite Hc.
  set (st2 := mkState {| dataframe := Some raw; geodata := Some geo;
                         merge_dict := merge_dict (self st) |} (cache_file st)).
  assert ((set_dataframe raw ;;; set_dataframe raw ;;;
           emit (Print [Lit "The path and file already exist"])) st1
          = mkResult [Print [Lit "The path and file already exist"]] st2 (inr tt))
    as Hbranch.
  { rewrite (bind_pure _ _ st1 st2 tt (set_dataframe_run raw st1)).
    rewrite (bind_pure _ _ st2 st2 tt (set_dataframe_run raw st2)).
    reflexivity. }
  rewrite (bind_run _ _ st1 _ st2 tt Hbranch).
  subst st2. rewrite clean_step_run. rewrite Hc. reflexivity.
Qed.

(** Acquisition when the cache file is absent and the request succeeds. *)
Lemma download_save_data_miss_run geo content st :
  cache_file st = None ->
  download_save_data geo (inr content) st =
    mkResult
      [ HttpGet url 40; WriteFile file_path;
        Print [Lit "The file has been stored in the downloads directory with the name Dataset.csv"] ]
      (mkState {| dataframe := Some (remove_aggregates content);
                  geodata := Some geo;
                  merge_dict := merge_dict (self st) |} (Some content))
      (inr tt).
Proof.
  intros Hc. unfold download_save_data.
  rewrite (bind_pure _ _ st _ _ (set_geodata_state geo st)).
  set (st1 := mkState {| dataframe := dataframe (self st); geodata := Some geo;
                         merge_dict := merge_dict (self st) |} (cache_file st)).
  rewrite (bind_pure _ _ st1 st1 _ (get_cache_file_run st1)).
  change (cache_file st1) with (cache_file st). rewrite Hc.
  set (st2 := mkState {| dataframe := Some content; geodata := Some geo;
                         merge_dict := merge_dict (self st) |} (Some content)).
  assert ((emit (HttpGet url 40) ;;;
           content0 <- lift (inr content) ;;
           emit (WriteFile file_path) ;;;
           put_cache_file content0 ;;;
           set_dataframe content0 ;;;
           emit (Print [Lit "The file has been stored in the downloads directory with the name Dataset.csv"]))
            st1
          = mkResult
              [ HttpGet url 40; WriteFile file_path;
                Print [Lit "The file has been stored in the downloads directory with the name Dataset.csv"] ]
              st2 (inr tt)) as Hbranch.
  { rewrite (bind_run _ _ st1 _ st1 tt (emit_run _ st1)).
    assert (lift (inr content) st1 = mkResult [] st1 (inr content)) as Hlift
        by reflexivity.
    rewrite (bind_pure _ _ st1 st1 content Hlift).
    rewrite (bind_run _ _ st1 _ st1 tt (emit_run _ st1)).
    rewrite (bind_pure _ _ st1 _ tt (put_cache_file_run content st1)).
    rewrite (bind_pure _ _ _ _ tt (set_dataframe_run content (mkState (self st1) (Some content)))).
    reflexivity. }
  rewrite (bind_run _ _ st1 _ st2 tt Hbranch).
  subst st2. rewrite clean_step_run. reflexivity.
Qed.

(** Acquisition when the cache file is absent and the request fails. *)
Lemma download_save_data_fail_run geo e st :
  cache_file st = None ->
  download_save_data geo (inl e) st =
    mkResult [HttpGet url 40]
      (mkState {| dataframe := dataframe (self st);
                  geodata := Some geo;
                  merge_dict := merge_dict (self st) |} None)
      (inl e).
Proof.
  intros Hc. unfold download_save_data.
  rewrite (bind_pure _ _ st _ _ (set_geodata_state geo st)).
  set (st1 := mkState {| dataframe := dataframe (self st); geodata := Some geo;
                         merge_dict := merge_dict (self st) |} (cache_file st)).
  rewrite (bind_pure _ _ st1 st1 _ (get_cache_file_run st1)).
  change (cache_file st1) with (cache_file st). rewrite Hc.
  assert ((emit (HttpGet url 40) ;;;
           content0 <- lift (inl e) ;;
           emit (WriteFile file_path) ;;;
           put_cache_file content0 ;;;
           set_dataframe content0 ;;;
           emit (Print [Lit "The file has been stored in the downloads directory with the name Dataset.csv"]))
            st1
          = mkResult [HttpGet url 40] st1 (@inl exn unit e)) as Hbranch.
  { rewrite (bind_run _ _ st1 _ st1 tt (emit_run _ st1)).
    assert (@lift table (inl e) st1 = mkResult [] st1 (inl e)) as Hlift by reflexivity.
    rewrite (bind_raise _ _ st1 _ st1 e Hlift). reflexivity. }
  rewrite (bind_raise _ _ st1 _ st1 e Hbranch).
  subst st1. rewrite Hc. reflexivity.
Qed.

(** What a successful acquisition leaves in the object. *)
Lemma download_save_data_ok geo response st :
  outcome (download_save_data geo response st) = inr tt ->
  exists raw,
    (cache_file st = Some raw \/ (cache_file st = None /\ response = inr raw))
    /\ dataframe (self (final (download_save_data geo response st)))
       = Some (remove_aggregates raw).
Proof.
  destruct (cache_file st) as [raw|] eqn:Hc.
  - rewrite (download_save_data_hit_run geo response st raw Hc).
    intros _. exists raw. split; [left; reflexivity | reflexivity].
  - destruct response as [e|raw].
    + rewrite (download_save_data_fail_run geo e st Hc). discriminate.
    + rewrite (download_save_data_miss_run geo raw st Hc).
      intros _. exists raw. split; [right; split; reflexivity | reflexivity].
Qed.

(** C6: whenever acquisition succeeds, the table it leaves in the object is
    the table it read (from the cache file, or from the response when there
    is no cache file) without its aggregate rows: no row of it has an entity
    in the fixed list of labels, and filtering it again changes nothing. *)
Theorem cleaned_table_has_no_aggregate geo response st :
  outcome (download_save_data geo response st) = inr tt ->
  exists raw cleaned,
    (cache_file st = Some raw \/ (cache_file st = None /\ response = inr raw))
    /\ dataframe (self (final (download_save_data geo response st))) = Some cleaned
    /\ cleaned = remove_aggregates raw
    /\ (forall r label,
          In r cleaned -> In label entities_to_remove -> Entity r <> label)
    /\ remove_aggregates cleaned = cleaned.
Proof.
  intros Hok. destruct (download_save_data_ok geo response st Hok) as [raw [Hsrc Hdf]].
  exists raw, (remove_aggregates raw). repeat split; try assumption.
  - intros r label Hr Hlabel Heq. apply remove_aggregates_In in Hr.
    destruct Hr as [_ Hr]. apply Hr. rewrite Heq. exact Hlabel.
  - apply remove_aggregates_idempotent.
Qed.

Lemma cleaned_table_has_no_aggregate_witness :
  exists raw cleaned,
    (cache_file sample_start = Some raw
     \/ (cache_file sample_start = None /\ @inl exn table RequestException = inr raw))
    /\ dataframe (self (final (download_save_data sample_geo (inl RequestException)
                                 sample_start))) = Some cleaned
    /\ cleaned = remove_aggregates raw
    /\ (forall r label,
          In r cleaned -> In label entities_to_remove -> Entity r <> label)
    /\ remove_aggregates cleaned = cleaned.
Proof.
  apply (cleaned_table_has_no_aggregate sample_geo (inl RequestException) sample_start).
  reflexivity.
Defined.

(** ** [predict_tfp] *)

Lemma py_in_Some c available s :
  py_in c available = Some s -> c = PyStr s /\ In s available.
Proof.
  destruct c; simpl; try discriminate.
  destruct (isin s0 available) eqn:E; [|discriminate].
  intros [= <-]. split; [reflexivity | apply isin_In; exact E].
Qed.

Lemma accepted_In available chosen s :
  In s (accepted available chosen) <-> In (PyStr s) chosen /\ In s available.
Proof.
  induction chosen as [|c r IH]; simpl; [tauto|].
  destruct (py_in c available) as [s'|] eqn:E.
  - apply py_in_Some in E. destruct E as [-> Hs']. simpl. rewrite IH.
    split.
    + intros [<- | [H1 H2]]; auto.
    + intros [[[= ->] | H1] H2]; auto.
  - rewrite IH. split; [tauto|].
    intros [[-> | H1] H2]; [|tauto].
    simpl in E. apply isin_In in H2. rewrite H2 in E. discriminate.
Qed.

Lemma rejected_In available chosen c :
  In c (rejected available chosen) <-> In c chosen /\ py_in c available = None.
Proof.
  induction chosen as [|c' r IH]; simpl; [tauto|].
  destruct (py_in c' available) eqn:E; simpl; rewrite IH.
  - split; [tauto|]. intros [[<- | H1] H2]; [congruence | tauto].
  - split; [intros [<- | H]; tauto | tauto].
Qed.

Lemma check_countries_run available chosen valid st :
  check_countries available chosen valid st =
    mkResult (map notice (rejected available chosen)) st
      (inr (valid ++ accepted available chosen)).
Proof.
  revert valid. induction chosen as [|c r IH]; intros valid; simpl.
  - unfold ret. rewrite app_nil_r. reflexivity.
  - destruct (py_in c available) as [s|].
    + rewrite IH, <- app_assoc. reflexivity.
    + unfold bind. simpl. rewrite IH. reflexivity.
Qed.

Lemma rows_of_entity_In r s df :
  In r (rows_of_entity s df) <-> In r df /\ Entity r = s.
Proof.
  unfold rows_of_entity. rewrite filter_In, String.eqb_eq. reflexivity.
Qed.

Lemma max_list_spec l m :
  max_list l = Some m -> In m l /\ Forall (fun x => x <= m) l.
Proof.
  revert m. induction l as [|x l IH]; intros m; simpl; [discriminate|].
  destruct (max_list l) as [m'|] eqn:E; intros [= <-].
  - destruct (IH m' eq_refl) as [Hin Hall]. split.
    + destruct (Z.max_spec x m') as [[_ ->] | [_ ->]]; auto.
    + constructor; [lia|]. eapply Forall_impl; [exact Hall|].
      simpl. intros. lia.
  - split; [left; reflexivity|]. destruct l; [|discriminate].
    constructor; [lia | constructor].
Qed.

Lemma max_list_nonempty l : l <> [] -> exists m, max_list l = Some m.
Proof. destruct l; [congruence | simpl; eauto]. Qed.

(** An available name has a row, hence a last year. *)
Lemma last_year_available df s :
  In s (unique (map Entity df)) ->
  max_list (map Year (rows_of_entity s df)) = Some (last_year df s).
Proof.
  intros H. apply unique_In, in_map_iff in H. destruct H as [r [Hr Hin]].
  unfold last_year.
  destruct (max_list_nonempty (map Year (rows_of_entity s df))) as [m ->]; [|reflexivity].
  assert (In r (rows_of_entity s df)) as Hr' by (apply rows_of_entity_In; auto).
  destruct (rows_of_entity s df); [contradiction | discriminate].
Qed.

Lemma py_range_seqZ m : py_range (m + 1) (m + 29) = seqZ (m + 1) 28.
Proof. unfold py_range. f_equal. lia. Qed.

Lemma enumerate_In {A} (l : list A) i x :
  In (i, x) (enumerate l) -> In x l.
Proof. unfold enumerate. intros H. apply in_combine_r in H. exact H. Qed.

Lemma enumerate_In_exists {A} (l : list A) x :
  In x l -> exists i, In (i, x) (enumerate l).
Proof.
  unfold enumerate. generalize 0%nat. induction l as [|y l IH]; intros n; [contradiction|].
  simpl. intros [-> | H].
  - exists n. left. reflexivity.
  - destruct (IH (S n) H) as [i Hi]. exists i. right. exact Hi.
Qed.

Section Forecast_facts.

Variable arima : list fval -> nat * nat * nat -> nat -> fval.

Lemma plot_country_run df ic st :
  In (snd ic) (unique (map Entity df)) ->
  plot_country arima df ic st =
    mkResult (country_events arima df (last_year df (snd ic)) ic) st (inr tt).
Proof.
  intros H. unfold plot_country, country_events, forecast_of.
  rewrite (last_year_available df _ H), py_range_seqZ. reflexivity.
Qed.

(** The whole run on a non-empty list. *)
Lemma predict_tfp_run st df l :
  dataframe (self st) = Some df ->
  l <> [] ->
  let available := unique (map Entity df) in
  let valid := accepted available (take 3 l) in
  let notices := map notice (rejected available (take 3 l)) in
  predict_tfp arima (PyList l) st =
    match valid with
    | [] =>
        mkResult notices st
          (inl (ValueError
                  [Lit "None of the countries listed are available. Available countries are: ";
                   Lit (join ", " available)]))
    | _ =>
        mkResult
          (notices ++ Subplots
             :: flat_map (fun ic => country_events arima df (last_year df (snd ic)) ic)
                  (enumerate valid)
             ++ [ AxisSetTitle ("Actual and Predicted TFP for " ++ join ", " valid)%string;
                  AxisLegend
                    (flat_map (fun c => [c ++ " actual"; c ++ " predicted"]%string) valid);
                  Show ])
          st (inr tt)
    end.
Proof.
  intros Hdf Hl available valid notices.
  destruct l as [|c l]; [congruence|].
  unfold predict_tfp.
  subst valid notices. remember (take 3 (c :: l)) as chosen eqn:Hchosen.
  clear Hchosen Hl. subst available.
  remember (unique (map Entity df)) as available eqn:Havailable.
  rewrite (bind_run _ _ st [] st available)
    by (rewrite Havailable; apply countries_list_some; exact Hdf).
  rewrite (bind_run _ _ st _ st _ (check_countries_run available chosen [] st)).
  cbn [app].
  destruct (accepted available chosen) as [|v valid'] eqn:Hvalid.
  - unfold raise. cbn [trace final outcome]. rewrite app_nil_r. reflexivity.
  - rewrite (bind_run _ _ st _ st _ (emit_run Subplots st)).
    rewrite (bind_run _ _ st _ st _ (dataframe_subscript_some st df Hdf)).
    assert (forall ic, In ic (enumerate (v :: valid')) ->
              plot_country arima df ic st =
                mkResult (country_events arima df (last_year df (snd ic)) ic) st (inr tt))
      as Hbody.
    { intros [i x] Hx. apply plot_country_run. simpl.
      apply enumerate_In in Hx. rewrite <- Hvalid in Hx.
      apply accepted_In in Hx. rewrite Havailable in Hx. tauto. }
    rewrite (bind_run _ _ st _ st tt (for_each_emits _ _ _ st Hbody)).
    unfold bind, emit. cbn [trace final outcome app]. reflexivity.
Qed.

Lemma predict_tfp_take st l :
  predict_tfp arima (PyList l) st = predict_tfp arima (PyList (take 3 l)) st.
Proof.
  destruct l as [|c l]; [reflexivity|].
  change (take 3 (c :: l)) with (c :: take 2 l).
  unfold predict_tfp.
  change (take 3 (c :: take 2 l)) with (c :: take 2 (take 2 l)).
  change (take 3 (c :: l)) with (c :: take 2 l).
  rewrite take_take. reflexivity.
Qed.

(** The events of the plotting part are not console notices. *)
Lemma plotting_has_no_notice df (valid : list string) msg :
  ~ In (Print msg)
      (Subplots
         :: flat_map (fun ic => country_events arima df (last_year df (snd ic)) ic)
              (enumerate valid)
         ++ [ AxisSetTitle ("Actual and Predicted TFP for " ++ join ", " valid)%string;
              AxisLegend
                (flat_map (fun c => [c ++ " actual"; c ++ " predicted"]%string) valid);
              Show ]).
Proof.
  intros [H | H]; [discriminate|].
  apply in_app_or in H. destruct H as [H | H].
  - apply in_flat_map in H. destruct H as [ic [_ H]].
    unfold country_events in H. simpl in H.
    repeat (destruct H as [H | H]; [discriminate|]). exact H.
  - simpl in H. repeat (destruct H as [H | H]; [discriminate|]). exact H.
Qed.

(** C7: on the empty list the method prints its notice and returns
    normally; the notice is the only effect, so nothing is fitted and
    nothing is plotted, and the object is left as it was. *)
Theorem predict_tfp_empty_list st :
  predict_tfp arima (PyList []) st =
    mkResult [Print [Lit "Please specify at least one country."]] st (inr tt).
Proof. reflexivity. Qed.

(** C10: on a list of more than three names the run is the run on its
    first three names: a notice is printed only for a value among the
    first three, a line is drawn only for a name among the first three,
    and when none of the first three is in the table the domain error is
    raised, whatever the later names are. *)
Theorem predict_tfp_only_first_three st df l :
  dataframe (self st) = Some df ->
  (3 < length l)%nat ->
  let r := predict_tfp arima (PyList l) st in
  r = predict_tfp arima (PyList (take 3 l)) st
  /\ (forall c, In (notice c) (trace r) -> In c (take 3 l))
  /\ (forall xs ys i style label,
        In (AxisPlot xs ys i style label) (trace r) ->
        exists s, In (PyStr s) (take 3 l)
                  /\ (label = s ++ " actual" \/ label = s ++ " predicted")%string)
  /\ ((forall c, In c (take 3 l) -> py_in c (unique (map Entity df)) = None) ->
      outcome r =
        inl (ValueError
               [Lit "None of the countries listed are available. Available countries are: ";
                Lit (join ", " (unique (map Entity df)))])).
Proof.
  intros Hdf Hlen r.
  assert (l <> []) as Hl by (destruct l; [simpl in Hlen; lia | congruence]).
  pose proof (predict_tfp_run st df l Hdf Hl) as Hrun. cbv zeta in Hrun.
  fold r in Hrun.
  split; [apply predict_tfp_take|].
  remember (unique (map Entity df)) as available eqn:Havailable.
  destruct (accepted available (take 3 l)) as [|v valid'] eqn:Hvalid;
    rewrite Hrun; cbn [trace outcome]; repeat split.
  - intros c Hc. apply in_map_iff in Hc. destruct Hc as [c' [[= ->] Hc]].
    apply rejected_In in Hc. tauto.
  - intros xs ys i style label H. apply in_map_iff in H.
    destruct H as [c' [H _]]. discriminate.
  - intros c Hc. apply in_app_or in Hc. destruct Hc as [Hc | Hc].
    + apply in_map_iff in Hc. destruct Hc as [c' [[= ->] Hc]].
      apply rejected_In in Hc. tauto.
    + exfalso. exact (plotting_has_no_notice df (v :: valid') _ Hc).
  - intros xs ys i style label H. apply in_app_or in H. destruct H as [H | H].
    { apply in_map_iff in H. destruct H as [c' [H _]]. discriminate. }
    destruct H as [H | H]; [discriminate|].
    apply in_app_or in H. destruct H as [H | H].
    + apply in_flat_map in H. destruct H as [[j s] [Hs H]].
      apply enumerate_In in Hs. rewrite <- Hvalid in Hs.
      apply accepted_In in Hs. exists s. split; [tauto|].
      unfold country_events in H. cbn [fst snd] in H.
      destruct H as [[= _ _ _ _ <-] | [H | [H | [[= _ _ _ _ <-] | []]]]];
        try discriminate; auto.
    + simpl in H. repeat (destruct H as [H | H]; [discriminate|]). contradiction.
  - intros Hnone. exfalso.
    assert (In v (accepted available (take 3 l))) as Hv
        by (rewrite Hvalid; left; reflexivity).
    apply accepted_In in Hv. destruct Hv as [Hv Hav].
    specialize (Hnone _ Hv). simpl in Hnone.
    apply isin_In in Hav. rewrite Hav in Hnone. discriminate.
Qed.

(** C2, as the method has it: on a non-empty list the domain error is
    raised exactly when none of the first three names is in the table;
    otherwise the run ends normally, having printed one notice for each of
    the first three values that is not in the table and drawn, in order,
    the lines of exactly those of the first three names that are. *)
Theorem predict_tfp_validates_first_three st df l :
  dataframe (self st) = Some df ->
  l <> [] ->
  let available := unique (map Entity df) in
  let valid := accepted available (take 3 l) in
  let r := predict_tfp arima (PyList l) st in
  (forall s, In s valid <-> In (PyStr s) (take 3 l) /\ In s available)
  /\ (forall c, In c (rejected available (take 3 l)) <->
                In c (take 3 l) /\ py_in c available = None)
  /\ ((exists msg, outcome r = inl (ValueError msg)) <-> valid = [])
  /\ (valid = [] -> trace r = map notice (rejected available (take 3 l)))
  /\ (valid <> [] ->
      outcome r = inr tt
      /\ trace r =
           map notice (rejected available (take 3 l))
           ++ Subplots
           :: flat_map (fun ic => country_events arima df (last_year df (snd ic)) ic)
                (enumerate valid)
           ++ [ AxisSetTitle ("Actual and Predicted TFP for " ++ join ", " valid)%string;
                AxisLegend
                  (flat_map (fun c => [c ++ " actual"; c ++ " predicted"]%string) valid);
                Show ]).
Proof.
  intros Hdf Hl available valid r.
  pose proof (predict_tfp_run st df l Hdf Hl) as Hrun. cbv zeta in Hrun.
  fold available valid r in Hrun.
  split; [intros s; apply accepted_In|].
  split; [intros c; apply rejected_In|].
  destruct valid as [|v valid'] eqn:Hvalid; rewrite Hrun; cbn [trace outcome].
  - repeat split; eauto; congruence.
  - repeat split; try congruence. intros [msg H]. discriminate.
Qed.

Lemma predict_28 fitted n :
  predict fitted n (n + 27) = map fitted (seq n 28).
Proof. unfold predict. replace (n + 27 + 1 - n)%nat with 28%nat by lia. reflexivity. Qed.

(** C8: for every country the method accepts, the series that is fitted
    is the index of the rows of that country and of no other row, in table
    order; it is fitted with order (1,2,2) and no other order is ever used;
    the forecast asked for and drawn is the 28 levels predicted at the 28
    time indices that follow the series, placed at the 28 consecutive years
    after the last year in which the country has a row; every dashed line
    of the chart has 28 points. *)
Theorem predict_tfp_forecasts_28_years st df l country :
  dataframe (self st) = Some df ->
  In country (accepted (unique (map Entity df)) (take 3 l)) ->
  let r := predict_tfp arima (PyList l) st in
  let data := List.filter (fun x => String.eqb (Entity x) country) df in
  let fitted := arima (map tfp data) (1, 2, 2)%nat in
  exists m i,
    outcome r = inr tt
    /\ (forall x, In x data <-> In x df /\ Entity x = country)
    /\ (exists x, In x df /\ Entity x = country /\ Year x = m)
    /\ (forall x, In x df -> Entity x = country -> Year x <= m)
    /\ In (ArimaFit (map tfp data) (1, 2, 2)%nat) (trace r)
    /\ (forall endog order, In (ArimaFit endog order) (trace r) -> order = (1, 2, 2)%nat)
    /\ In (ArimaPredict (length data) (length data + 27)%nat) (trace r)
    /\ In (AxisPlot (seqZ (m + 1) 28) (map fitted (seq (length data) 28)) i "--"
             (country ++ " predicted")%string) (trace r)
    /\ length (map fitted (seq (length data) 28)) = 28%nat
    /\ length (seqZ (m + 1) 28) = 28%nat
    /\ (forall k, 0 <= k < 28 -> seqZ (m + 1) 28 !! Z.to_nat k = Some (m + 1 + k))
    /\ (forall xs ys j label,
          In (AxisPlot xs ys j "--" label) (trace r) ->
          length xs = 28%nat /\ length ys = 28%nat).
Proof.
  intros Hdf Hc r data fitted.
  change data with (rows_of_entity country df) in *.
  assert (l <> []) as Hl by (intros ->; simpl in Hc; contradiction).
  pose proof (predict_tfp_run st df l Hdf Hl) as Hrun. cbv zeta in Hrun.
  fold r in Hrun.
  assert (In country (unique (map Entity df))) as Havail
      by (apply accepted_In in Hc; tauto).
  destruct (enumerate_In_exists _ _ Hc) as [i Hi].
  destruct (max_list_spec _ _ (last_year_available df country Havail)) as [Hlast Hmax].
  exists (last_year df country), i.
  destruct (accepted (unique (map Entity df)) (take 3 l)) as [|v valid'] eqn:Hvalid;
    [contradiction|].
  rewrite Hrun. cbn [trace outcome].
  assert (forall ev, In ev (country_events arima df (last_year df country) (i, country)) ->
            In ev (map notice (rejected (unique (map Entity df)) (take 3 l))
                   ++ Subplots
                   :: flat_map
                        (fun ic => country_events arima df (last_year df (snd ic)) ic)
                        (enumerate (v :: valid'))
                   ++ [ AxisSetTitle
                          ("Actual and Predicted TFP for " ++ join ", " (v :: valid'))%string;
                        AxisLegend
                          (flat_map (fun c => [c ++ " actual"; c ++ " predicted"]%string)
                             (v :: valid'));
                        Show ])) as Hin.
  { intros ev Hev. apply in_or_app. right. right. apply in_or_app. left.
    apply in_flat_map. exists (i, country). split; [exact Hi | exact Hev]. }
  split; [reflexivity|].
  split; [intros x; apply rows_of_entity_In|].
  split.
  { apply in_map_iff in Hlast. destruct Hlast as [x [Hyear Hx]].
    apply rows_of_entity_In in Hx. exists x. tauto. }
  split.
  { intros x Hx He. rewrite List.Forall_forall in Hmax. apply Hmax.
    apply in_map. apply rows_of_entity_In. auto. }
  split; [apply Hin; unfold country_events; simpl; auto|].
  split.
  { intros endog order H. apply in_app_or in H. destruct H as [H | H].
    { apply in_map_iff in H. destruct H as [c' [H _]]. discriminate. }
    destruct H as [H | H]; [discriminate|].
    apply in_app_or in H. destruct H as [H | H].
    - apply in_flat_map in H. destruct H as [ic [_ H]].
      unfold country_events in H. simpl in H.
      destruct H as [H | [[= _ <-] | [H | [H | []]]]]; try discriminate. reflexivity.
    - simpl in H. repeat (destruct H as [H | H]; [discriminate|]). contradiction. }
  split; [apply Hin; unfold country_events; simpl; auto|].
  split.
  { apply Hin. unfold country_events, forecast_of. cbn [fst snd].
    rewrite predict_28. simpl. auto 6. }
  split; [rewrite length_map, length_seq; reflexivity|].
  split; [rewrite length_seqZ; reflexivity|].
  split; [intros k Hk; rewrite lookup_seqZ_lt by lia; f_equal; lia|].
  intros xs ys j label H. apply in_app_or in H. destruct H as [H | H].
  { apply in_map_iff in H. destruct H as [c' [H _]]. discriminate. }
  destruct H as [H | H]; [discriminate|].
  apply in_app_or in H. destruct H as [H | H].
  - apply in_flat_map in H. destruct H as [ic [_ H]].
    unfold country_events, forecast_of in H. cbn [fst snd] in H.
    rewrite predict_28 in H.
    destruct H as [H | [H | [H | [[= <- <- _ _] | []]]]]; try discriminate.
    split; [rewrite length_seqZ; reflexivity | reflexivity].
  - simpl in H. repeat (destruct H as [H | H]; [discriminate|]). contradiction.
Qed.

End Forecast_facts.

Lemma predict_tfp_only_first_three_witness :
  In (PyStr "Canada") four_names
  /\ outcome (predict_tfp naive_forecast (PyList four_names) sample_state) =
       inl (ValueError
              [Lit "None of the countries listed are available. Available countries are: ";
               Lit "Canada, France"]).
Proof.
  split; [simpl; auto|].
  destruct (predict_tfp_only_first_three naive_forecast sample_state sample_clean
              four_names eq_refl ltac:(simpl; lia)) as (_ & _ & _ & H).
  apply H. intros c Hc. simpl in Hc.
  destruct Hc as [<- | [<- | [<- | []]]]; reflexivity.
Defined.

(** C2 as stated fails on a list of four names: "Canada" is supplied and is
    in the table, and the domain error is raised all the same, because it
    stands in fourth position. *)
Lemma predict_tfp_valid_name_in_fourth_position :
  dataframe (self sample_state) = Some sample_clean
  /\ In (PyStr "Canada") four_names
  /\ In "Canada" (unique (map Entity sample_clean))
  /\ outcome (predict_tfp naive_forecast (PyList four_names) sample_state) =
       inl (ValueError
              [Lit "None of the countries listed are available. Available countries are: ";
               Lit "Canada, France"]).
Proof.
  split; [reflexivity|]. split; [simpl; auto|]. split; [simpl; auto|].
  vm_compute. reflexivity.
Qed.

Lemma predict_tfp_validates_first_three_witness :
  accepted (unique (map Entity sample_clean)) (take 3 two_names) = ["Canada"]
  /\ rejected (unique (map Entity sample_clean)) (take 3 two_names) = [PyStr "Atlantis"]
  /\ outcome (predict_tfp naive_forecast (PyList two_names) sample_state) = inr tt.
Proof.
  split; [reflexivity|]. split; [reflexivity|].
  destruct (predict_tfp_validates_first_three naive_forecast sample_state sample_clean
              two_names eq_refl ltac:(discriminate)) as (_ & _ & _ & _ & H).
  apply H. discriminate.
Defined.

Lemma predict_tfp_forecasts_28_years_witness :
  In (ArimaFit [Fin 100; Fin 104] (1, 2, 2)%nat)
     (trace (predict_tfp naive_forecast (PyList two_names) sample_state))
  /\ exists i,
       In (AxisPlot (seqZ 2002 28) (replicate 28 (Fin 104)) i "--" "Canada predicted")
          (trace (predict_tfp naive_forecast (PyList two_names) sample_state)).
Proof.
  destruct (predict_tfp_forecasts_28_years naive_forecast sample_state sample_clean
              two_names "Canada" eq_refl ltac:(simpl; auto))
    as (m & i & _ & _ & [x [Hx [He Hm]]] & Hmax & Hfit & _ & _ & Hplot & _).
  assert (2001 <= m) as Hge
      by (apply (Hmax (sample_row "Canada" 2001 0 0 0 104));
          [simpl; auto | reflexivity]).
  assert (m = 2001) as ->.
  { simpl in Hx. destruct Hx as [<- | [<- | [<- | []]]]; simpl in He, Hm;
      try discriminate; lia. }
  split; [exact Hfit | exists i; exact Hplot].
Defined.

(** ** [compare_output_for_countries] *)

Lemma invalid_countries_spec (names : list string) (df : table) (s : string) :
  s ∈ (list_to_set names ∖ list_to_set (unique (map Entity df)) : gset string)
  <-> In s names /\ ~ In s (map Entity df).
Proof.
  rewrite elem_of_difference, !elem_of_list_to_set, !list_elem_of_In, unique_In.
  reflexivity.
Qed.

(** C5: for a request that is a name or a list of names, the names that
    are not entities of the table form the set [invalid]; when the request
    has such a name the method raises, before drawing anything, the domain
    error whose message carries exactly that set, and when every requested
    name is an entity it ends normally. *)
Theorem compare_output_unknown_names st df countries names :
  dataframe (self st) = Some df ->
  country_names countries = Some names ->
  let r := compare_output_for_countries countries st in
  let invalid : gset string :=
    list_to_set names ∖ list_to_set (unique (map Entity df)) in
  (forall s, s ∈ invalid <-> In s names /\ ~ In s (map Entity df))
  /\ ((exists s, In s names /\ ~ In s (map Entity df)) ->
      r = mkResult [] st
            (inl (ValueError [Lit "The following countries are not in the dataset: ";
                              FmtSet invalid])))
  /\ ((forall s, In s names -> In s (map Entity df)) -> outcome r = inr tt).
Proof.
  intros Hdf Hnames r invalid.
  split; [intros s; apply invalid_countries_spec|].
  subst r. unfold compare_output_for_countries. rewrite Hnames.
  rewrite (bind_run _ _ st _ st _ (dataframe_subscript_some st df Hdf)).
  fold invalid. split.
  - intros [s Hs]. apply invalid_countries_spec in Hs. fold invalid in Hs.
    destruct (decide (invalid = ∅)) as [Hempty | _].
    + rewrite Hempty in Hs. exfalso. exact (not_elem_of_empty s Hs).
    + reflexivity.
  - intros Hall. destruct (decide (invalid = ∅)) as [_ | Hne].
    + rewrite (bind_run _ _ st _ st tt
                 (for_each_emits _
                    (fun country =>
                       [LinePlot (map fst (total_output names df country))
                          (map snd (total_output names df country)) country])
                    names st (fun x _ => eq_refl))).
      reflexivity.
    + exfalso. apply Hne. apply set_eq. intros s. split.
      * intros Hs. apply invalid_countries_spec in Hs. destruct Hs as [H1 H2].
        exfalso. apply H2, Hall, H1.
      * intros Hs. exfalso. exact (not_elem_of_empty s Hs).
Qed.

Lemma compare_output_unknown_names_witness :
  compare_output_for_countries (PyStr "Atlantis") sample_state =
    mkResult [] sample_state
      (inl (ValueError [Lit "The following countries are not in the dataset: ";
                        FmtSet (list_to_set ["Atlantis"]
                                  ∖ list_to_set (unique (map Entity sample_clean)))]))
  /\ (forall s,
        s ∈ (list_to_set ["Atlantis"] ∖ list_to_set (unique (map Entity sample_clean))
             : gset string)
        <-> s = "Atlantis").
Proof.
  destruct (compare_output_unknown_names sample_state sample_clean (PyStr "Atlantis")
              ["Atlantis"] eq_refl eq_refl) as (Hset & Hraise & _).
  split.
  - apply Hraise. exists "Atlantis". split; [left; reflexivity|].
    simpl. intros [H | [H | [H | []]]]; discriminate.
  - intros s. rewrite Hset. simpl. split.
    + intros [[<- | []] _]. reflexivity.
    + intros ->. split; [left; reflexivity|].
      intros [H | [H | [H | []]]]; discriminate.
Defined.

(** ** Minimum and maximum of a column *)

Lemma fle_refl x : is_nan x = false -> fle x x = true.
Proof.
  destruct x; simpl; try reflexivity; try discriminate.
  intros _. apply Qle_bool_iff. apply Qle_refl.
Qed.

Lemma fle_total x y :
  is_nan x = false -> is_nan y = false -> fle x y = false -> fle y x = true.
Proof.
  destruct x as [a| | |], y as [b| | |]; simpl; try discriminate; try reflexivity.
  intros _ _ H. apply Qle_bool_iff. apply Qlt_le_weak, Qnot_le_lt.
  intros Hle. apply Qle_bool_iff in Hle. congruence.
Qed.

Lemma fle_trans x y z : fle x y = true -> fle y z = true -> fle x z = true.
Proof.
  destruct x as [a| | |], y as [b| | |], z as [c| | |]; simpl;
    try discriminate; try reflexivity.
  rewrite !Qle_bool_iff. apply Qle_trans.
Qed.

Lemma fle_not_nan x y : fle x y = true -> is_nan x = false /\ is_nan y = false.
Proof. destruct x, y; simpl; try discriminate; auto. Qed.

(** [foldl fmin2 v l] is an element of [v :: l] below all of them. *)
Lemma foldl_fmin2_spec l v :
  is_nan v = false ->
  Forall (fun x => is_nan x = false) l ->
  In (foldl fmin2 v l) (v :: l)
  /\ Forall (fun x => fle (foldl fmin2 v l) x = true) (v :: l).
Proof.
  revert v. induction l as [|x l IH]; intros v Hv Hl.
  - simpl. split; [left; reflexivity|]. repeat constructor. apply fle_refl, Hv.
  - apply Forall_cons in Hl. destruct Hl as [Hx Hl]. cbn [foldl].
    assert (is_nan (fmin2 v x) = false) as Hm
        by (unfold fmin2; destruct (fle v x); assumption).
    destruct (IH (fmin2 v x) Hm Hl) as [Hin Hall].
    apply Forall_cons in Hall. destruct Hall as [Hhead Hall].
    destruct (fle v x) eqn:E.
    + assert (fmin2 v x = v) as Heq by (unfold fmin2; rewrite E; reflexivity).
      rewrite Heq in *. split.
      * destruct Hin as [Hin | Hin]; [rewrite <- Hin; simpl; auto | right; right; exact Hin].
      * repeat constructor; [exact Hhead | | exact Hall].
        eapply fle_trans; [exact Hhead | exact E].
    + assert (fmin2 v x = x) as Heq by (unfold fmin2; rewrite E; reflexivity).
      rewrite Heq in *. split.
      * destruct Hin as [Hin | Hin]; [rewrite <- Hin; simpl; auto | right; right; exact Hin].
      * repeat constructor; [ | exact Hhead | exact Hall].
        eapply fle_trans; [exact Hhead|]. apply fle_total; assumption.
Qed.

Lemma foldl_fmax2_spec l v :
  is_nan v = false ->
  Forall (fun x => is_nan x = false) l ->
  In (foldl fmax2 v l) (v :: l)
  /\ Forall (fun x => fle x (foldl fmax2 v l) = true) (v :: l).
Proof.
  revert v. induction l as [|x l IH]; intros v Hv Hl.
  - simpl. split; [left; reflexivity|]. repeat constructor. apply fle_refl, Hv.
  - apply Forall_cons in Hl. destruct Hl as [Hx Hl]. cbn [foldl].
    assert (is_nan (fmax2 v x) = false) as Hm
        by (unfold fmax2; destruct (fle v x); assumption).
    destruct (IH (fmax2 v x) Hm Hl) as [Hin Hall].
    apply Forall_cons in Hall. destruct Hall as [Hhead Hall].
    destruct (fle v x) eqn:E.
    + assert (fmax2 v x = x) as Heq by (unfold fmax2; rewrite E; reflexivity).
      rewrite Heq in *. split.
      * destruct Hin as [Hin | Hin]; [rewrite <- Hin; simpl; auto | right; right; exact Hin].
      * repeat constructor; [ | exact Hhead | exact Hall].
        eapply fle_trans; [exact E | exact Hhead].
    + assert (fmax2 v x = v) as Heq by (unfold fmax2; rewrite E; reflexivity).
      rewrite Heq in *. split.
      * destruct Hin as [Hin | Hin]; [rewrite <- Hin; simpl; auto | right; right; exact Hin].
      * repeat constructor; [exact Hhead | | exact Hall].
        eapply fle_trans; [|exact Hhead]. apply fle_total; assumption.
Qed.

Lemma not_nan_filter l :
  Forall (fun x => is_nan x = false) (List.filter (fun v => negb (is_nan v)) l).
Proof.
  apply List.Forall_forall. intros x Hx. apply filter_In in Hx.
  destruct Hx as [_ Hx]. apply negb_true_iff in Hx. exact Hx.
Qed.

(** [nanmin l] is below every cell of [l] that is not NaN and is one of
    them, unless there is none. *)
Lemma nanmin_spec l :
  (forall x, In x l -> is_nan x = false -> fle (nanmin l) x = true)
  /\ ((exists x, In x l /\ is_nan x = false) ->
      In (nanmin l) l /\ is_nan (nanmin l) = false).
Proof.
  unfold nanmin. pose proof (not_nan_filter l) as Hall.
  assert (forall x, In x l -> is_nan x = false ->
            In x (List.filter (fun v => negb (is_nan v)) l)) as Hfilter
      by (intros x H1 H2; apply filter_In; rewrite H2; auto).
  assert (forall x, In x (List.filter (fun v => negb (is_nan v)) l) -> In x l) as Hback
      by (intros x H; apply filter_In in H; tauto).
  destruct (List.filter (fun v => negb (is_nan v)) l) as [|v r].
  - split.
    + intros x H1 H2. destruct (Hfilter x H1 H2).
    + intros [x [H1 H2]]. destruct (Hfilter x H1 H2).
  - apply Forall_cons in Hall. destruct Hall as [Hv Hr].
    destruct (foldl_fmin2_spec r v Hv Hr) as [Hin Hle].
    split.
    + intros x H1 H2. rewrite List.Forall_forall in Hle. apply Hle, Hfilter; assumption.
    + intros _. split; [apply Hback, Hin|].
      rewrite List.Forall_forall in Hle.
      exact (proj1 (fle_not_nan _ _ (Hle v (or_introl eq_refl)))).
Qed.

Lemma nanmax_spec l :
  (forall x, In x l -> is_nan x = false -> fle x (nanmax l) = true)
  /\ ((exists x, In x l /\ is_nan x = false) ->
      In (nanmax l) l /\ is_nan (nanmax l) = false).
Proof.
  unfold nanmax. pose proof (not_nan_filter l) as Hall.
  assert (forall x, In x l -> is_nan x = false ->
            In x (List.filter (fun v => negb (is_nan v)) l)) as Hfilter
      by (intros x H1 H2; apply filter_In; rewrite H2; auto).
  assert (forall x, In x (List.filter (fun v => negb (is_nan v)) l) -> In x l) as Hback
      by (intros x H; apply filter_In in H; tauto).
  destruct (List.filter (fun v => negb (is_nan v)) l) as [|v r].
  - split.
    + intros x H1 H2. destruct (Hfilter x H1 H2).
    + intros [x [H1 H2]]. destruct (Hfilter x H1 H2).
  - apply Forall_cons in Hall. destruct Hall as [Hv Hr].
    destruct (foldl_fmax2_spec r v Hv Hr) as [Hin Hle].
    split.
    + intros x H1 H2. rewrite List.Forall_forall in Hle. apply Hle, Hfilter; assumption.
    + intros _. split; [apply Hback, Hin|].
      rewrite List.Forall_forall in Hle.
      exact (proj2 (fle_not_nan _ _ (Hle v (or_introl eq_refl)))).
Qed.

(** ** [choropleth] *)

Lemma geodata_subscript_some st geo :
  geodata (self st) = Some geo ->
  geodata_subscript st = mkResult [] st (inr geo).
Proof. intros H. unfold geodata_subscript, bind. simpl. rewrite H. reflexivity. Qed.

Lemma get_self_run st : get_self st = mkResult [] st (inr (self st)).
Proof. reflexivity. Qed.

Lemma set_merge_dict_run d st :
  set_merge_dict d st =
    mkResult []
      (mkState {| dataframe := dataframe (self st); geodata := geodata (self st);
                  merge_dict := d |} (cache_file st))
      (inr tt).
Proof. reflexivity. Qed.

Lemma set_geodata_run g st :
  set_geodata g st =
    mkResult []
      (mkState {| dataframe := dataframe (self st); geodata := Some g;
                  merge_dict := merge_dict (self st) |} (cache_file st))
      (inr tt).
Proof. reflexivity. Qed.

Lemma year_as_int_ok year y st :
  py_int year = inr y -> year_as_int year st = mkResult [] st (inr y).
Proof. intros H. unfold year_as_int, try_except, lift. rewrite H. reflexivity. Qed.

(** With a table loaded, the test of the year raises nothing. *)
Lemma year_test_run y st df :
  dataframe (self st) = Some df ->
  year_test y st = mkResult [] st (inr true).
Proof.
  intros Hdf. unfold year_test.
  rewrite (bind_run _ _ st _ st _ (dataframe_subscript_some st df Hdf)).
  rewrite (bind_run _ _ st _ st _ (dataframe_attribute_some "empty" st df Hdf)).
  reflexivity.
Qed.

Lemma geo_plot_run column data vmin vmax st :
  (geo_plot column data vmin vmax ;;; emit Show) st =
    mkResult
      (GeoPlot column data vmin vmax :: match data with [] => [] | _ :: _ => [Show] end)
      st
      (match data with
       | [] => inl (ValueError [Lit "aspect must be finite and positive"])
       | _ :: _ => inr tt
       end).
Proof. destruct data; reflexivity. Qed.

(** The whole run for a year that [int] accepts: the rows handed to the
    renderer, and the failure of the renderer when there is none. *)
Lemma choropleth_run st df geo year y :
  dataframe (self st) = Some df ->
  geodata (self st) = Some geo ->
  py_int year = inr y ->
  let data := merged_of_year y (merge_left (map (replace_name rename_dict) geo) df) in
  choropleth year st =
    mkResult
      (GeoPlot "tfp" data (nanmin (map tfp df)) (nanmax (map tfp df))
         :: match data with [] => [] | _ :: _ => [Show] end)
      (mkState
         {| dataframe := Some df;
            geodata := Some (map (replace_name rename_dict) geo);
            merge_dict := rename_dict |}
         (cache_file st))
      (match data with
       | [] => inl (ValueError [Lit "aspect must be finite and positive"])
       | _ :: _ => inr tt
       end).
Proof.
  intros Hdf Hgeo Hy data. unfold choropleth.
  rewrite (bind_run _ _ st _ st _ (year_as_int_ok year y st Hy)).
  assert (try_except (year_test y)
            (fun _ => Some (ValueError [Lit "Year is not present in the Dataset"])) st
          = mkResult [] st (inr true)) as Htest
      by (unfold try_except; rewrite (year_test_run y st df Hdf); reflexivity).
  rewrite (bind_pure _ _ st st _ Htest).
  rewrite (bind_pure _ _ st _ _ (set_merge_dict_run rename_dict st)).
  set (st1 := mkState {| dataframe := dataframe (self st); geodata := geodata (self st);
                         merge_dict := rename_dict |} (cache_file st)).
  rewrite (bind_pure _ _ st1 st1 _ (get_self_run st1)).
  rewrite (bind_pure _ _ st1 st1 _ (geodata_subscript_some st1 geo Hgeo)).
  rewrite (bind_pure _ _ st1 _ _ (set_geodata_run _ st1)).
  set (st2 := mkState {| dataframe := dataframe (self st1);
                         geodata := Some (map (replace_name (merge_dict (self st1))) geo);
                         merge_dict := merge_dict (self st1) |} (cache_file st1)).
  rewrite (bind_pure _ _ st2 st2 _ (geodata_subscript_some st2 _ eq_refl)).
  rewrite (bind_pure _ _ st2 st2 _ (dataframe_subscript_some st2 df Hdf)).
  rewrite geo_plot_run. subst st2 st1.
  cbn [trace final outcome self cache_file dataframe geodata merge_dict app].
  fold data. rewrite Hdf. reflexivity.
Qed.

(** Whatever the year, a loaded table never makes the method raise its
    domain error: a value error can only come from the renderer. *)
Lemma choropleth_no_domain_error st df year :
  dataframe (self st) = Some df ->
  outcome (choropleth year st)
  <> inl (ValueError [Lit "Year is not present in the Dataset"]).
Proof.
  intros Hdf.
  destruct (py_int year) as [e|y] eqn:Hy.
  - unfold choropleth.
    assert (exists e', outcome (year_as_int year st) = inl e'
                       /\ forall m, e' <> ValueError m) as [e' [He' Hne]].
    { unfold year_as_int, try_except, lift. rewrite Hy. simpl.
      destruct e; simpl; eexists; (split; [reflexivity | discriminate]). }
    rewrite (bind_err _ _ st e' He'). simpl. intros [= H]. exact (Hne _ H).
  - destruct (geodata (self st)) as [geo|] eqn:Hgeo.
    + rewrite (choropleth_run st df geo year y Hdf Hgeo Hy). cbn [outcome].
      destruct (merged_of_year y (merge_left (map (replace_name rename_dict) geo) df));
        discriminate.
    + unfold choropleth.
      rewrite (bind_pure _ _ st st _ (year_as_int_ok year y st Hy)).
      assert (try_except (year_test y)
                (fun _ => Some (ValueError [Lit "Year is not present in the Dataset"])) st
              = mkResult [] st (inr true)) as Htest
          by (unfold try_except; rewrite (year_test_run y st df Hdf); reflexivity).
      rewrite (bind_pure _ _ st st _ Htest).
      rewrite (bind_pure _ _ st _ _ (set_merge_dict_run rename_dict st)).
      set (st1 := mkState {| dataframe := dataframe (self st);
                             geodata := geodata (self st);
                             merge_dict := rename_dict |} (cache_file st)).
      rewrite (bind_pure _ _ st1 st1 _ (get_self_run st1)).
      assert (forall st', geodata (self st') = None ->
                geodata_subscript st' =
                  mkResult [] st'
                    (inl (TypeError [Lit "'NoneType' object is not subscriptable"])))
        as Hnone
          by (intros st' H; unfold geodata_subscript, bind; simpl; rewrite H; reflexivity).
      rewrite (bind_raise _ _ st1 _ _ _ (Hnone st1 Hgeo)). discriminate.
Qed.

(** C9: for a year that [int] accepts, the bounds handed to the renderer
    are the minimum and the maximum of the index column of the whole table:
    they bound the index of every row, of any year, and do not depend on
    the year; a second call with another year hands over the same bounds.
    The chart is shown after the call when the renderer was given a row. *)
Theorem choropleth_scale_is_global st df geo year y year' y' :
  dataframe (self st) = Some df ->
  geodata (self st) = Some geo ->
  py_int year = inr y ->
  py_int year' = inr y' ->
  let vmin := nanmin (map tfp df) in
  let vmax := nanmax (map tfp df) in
  let r := choropleth year st in
  let r' := choropleth year' (final r) in
  (exists data,
     trace r = GeoPlot "tfp" data vmin vmax
               :: match data with [] => [] | _ :: _ => [Show] end)
  /\ (exists data',
        trace r' = GeoPlot "tfp" data' vmin vmax
                   :: match data' with [] => [] | _ :: _ => [Show] end)
  /\ (forall x, In x df -> is_nan (tfp x) = false ->
        fle vmin (tfp x) = true /\ fle (tfp x) vmax = true)
  /\ ((exists x, In x df /\ is_nan (tfp x) = false) ->
        In vmin (map tfp df) /\ In vmax (map tfp df)).
Proof.
  intros Hdf Hgeo Hy Hy' vmin vmax r r'.
  subst r r'. rewrite (choropleth_run st df geo year y Hdf Hgeo Hy).
  cbv zeta. cbn [trace final].
  rewrite (choropleth_run
             (mkState {| dataframe := Some df;
                         geodata := Some (map (replace_name rename_dict) geo);
                         merge_dict := rename_dict |} (cache_file st))
             df (map (replace_name rename_dict) geo) year' y' eq_refl eq_refl Hy').
  cbv zeta. cbn [trace].
  split; [eexists; reflexivity|]. split; [eexists; reflexivity|].
  split.
  - intros x Hx Hnan. split.
    + apply (proj1 (nanmin_spec (map tfp df))); [apply in_map; exact Hx | exact Hnan].
    + apply (proj1 (nanmax_spec (map tfp df))); [apply in_map; exact Hx | exact Hnan].
  - intros [x [Hx Hnan]]. split.
    + apply (proj2 (nanmin_spec (map tfp df))). exists (tfp x).
      split; [apply in_map; exact Hx | exact Hnan].
    + apply (proj2 (nanmax_spec (map tfp df))). exists (tfp x).
      split; [apply in_map; exact Hx | exact Hnan].
Qed.

(** On the sample table the rows of 2001 have the single index 104, and
    the bounds handed over for 2001 are 95 and 104, those of the table. *)
Lemma choropleth_scale_is_global_witness :
  map tfp (rows_of_year 2001 sample_clean) = [Fin 104]
  /\ (exists data,
        trace (choropleth (PyInt 2001) sample_state)
        = [GeoPlot "tfp" data (Fin 95) (Fin 104); Show])
  /\ (exists data',
        trace (choropleth (PyStr "2000")
                 (final (choropleth (PyInt 2001) sample_state)))
        = [GeoPlot "tfp" data' (Fin 95) (Fin 104); Show]).
Proof.
  split; [reflexivity|].
  destruct (choropleth_scale_is_global sample_state sample_clean sample_geo
              (PyInt 2001) 2001 (PyStr "2000") 2000 eq_refl eq_refl eq_refl eq_refl)
    as ([data H1] & [data' H2] & _).
  split.
  - exists data. rewrite H1. destruct data; [vm_compute in H1; discriminate | reflexivity].
  - exists data'. rewrite H2.
    destruct data'; [vm_compute in H2; discriminate | reflexivity].
Defined.

(** C1: the table of the sample session has no row of the year 1066, and
    on the call with 1066 the test of the year raises nothing: the method
    goes on, renames the boundaries and calls the renderer, with no row to
    draw.  The domain error of the method is not raised; the value error
    that ends the call is the one of the renderer, for a frame without
    row, and nothing is shown. *)
Theorem choropleth_absent_year_reaches_renderer :
  dataframe (self sample_state) = Some sample_clean
  /\ ~ In 1066 (map Year sample_clean)
  /\ try_except (year_test 1066)
       (fun _ => Some (ValueError [Lit "Year is not present in the Dataset"]))
       sample_state
     = mkResult [] sample_state (inr true)
  /\ trace (choropleth (PyInt 1066) sample_state)
     = [GeoPlot "tfp" [] (Fin 95) (Fin 104)]
  /\ outcome (choropleth (PyInt 1066) sample_state)
     = inl (ValueError [Lit "aspect must be finite and positive"])
  /\ geodata (self (final (choropleth (PyInt 1066) sample_state)))
     = Some (map (replace_name rename_dict) sample_geo).
Proof.
  split; [reflexivity|]. split.
  - simpl. intros [H | [H | [H | []]]]; discriminate.
  - split.
    + unfold try_except.
      rewrite (year_test_run 1066 sample_state sample_clean eq_refl). reflexivity.
    + rewrite (choropleth_run sample_state sample_clean sample_geo (PyInt 1066) 1066
                 eq_refl eq_refl eq_refl).
      repeat split.
Qed.

(** ** [gapminder] *)

(** A year that [int] refuses with a value error or a type error makes
    the method raise a type error. *)
Lemma gapminder_year_type_error year log_scale st e :
  py_int year = inl e ->
  (exists m, e = ValueError m) \/ (exists m, e = TypeError m) ->
  exists m, outcome (gapminder year log_scale st) = inl (TypeError m).
Proof.
  intros Hy He. unfold gapminder.
  assert (exists m, year_as_int year st = mkResult [] st (inl (TypeError m))) as [m Hm].
  { unfold year_as_int, try_except, lift. rewrite Hy.
    destruct He as [[m ->] | [m ->]]; simpl; eexists; reflexivity. }
  exists m. rewrite (bind_raise _ _ st _ st _ Hm). reflexivity.
Qed.

(** Infinity is refused by [int] with an overflow error, which the method
    lets through. *)
Lemma gapminder_infinite_year log_scale st :
  outcome (gapminder (PyFloat PInf) log_scale st) =
    inl (OverflowError [Lit "cannot convert float infinity to integer"]).
Proof. reflexivity. Qed.

(** A flag that equals neither [True] nor [False] makes the method raise
    its type error, once the year is converted and the table filtered. *)
Lemma gapminder_flag_type_error year y log_scale st df :
  dataframe (self st) = Some df ->
  py_int year = inr y ->
  py_eq_bool log_scale true = false ->
  py_eq_bool log_scale false = false ->
  gapminder year log_scale st =
    mkResult [] st (inl (TypeError [Lit "log_scale parameter must be a Boolean"])).
Proof.
  intros Hdf Hy Ht Hf. unfold gapminder.
  rewrite (bind_run _ _ st _ st _ (year_as_int_ok year y st Hy)).
  rewrite (bind_run _ _ st _ st _ (dataframe_subscript_some st df Hdf)).
  rewrite Ht, Hf. reflexivity.
Qed.

(** C3: the integers 1 and 0 are not booleans, yet with 1 as flag the
    method raises nothing and draws the logarithmic view, and with 0 it
    draws the plain view. *)
Theorem gapminder_accepts_integer_flag :
  dataframe (self sample_state) = Some sample_clean
  /\ outcome (gapminder (PyInt 2001) (PyInt 1) sample_state) = inr tt
  /\ trace (gapminder (PyInt 2001) (PyInt 1) sample_state)
     = [ Relplot "fertilizer_quantity_logs" "output_quantity_logs"
           [(Log (Fin 1), Log (Fin 2), Fin 3, Fin 4)];
         Show ]
  /\ outcome (gapminder (PyInt 2001) (PyInt 0) sample_state) = inr tt
  /\ trace (gapminder (PyInt 2001) (PyInt 0) sample_state)
     = [ Relplot "fertilizer_quantity" "output_quantity"
           [(Plain (Fin 1), Plain (Fin 2), Fin 3, Fin 4)];
         Show ].
Proof. repeat split; reflexivity. Qed.

(** ** [plot_output_area] *)

Lemma row_sum_finite r a b c :
  out_crop r = Fin a -> out_animal r = Fin b -> out_fish r = Fin c ->
  row_sum r = Fin (0 + a + b + c)%Q.
Proof. intros Ha Hb Hc. unfold row_sum. rewrite Ha, Hb, Hc. reflexivity. Qed.







(** * Further properties of the methods *)

(** ** Acquisition and the cache file *)

(** X1: when the cache file exists, acquisition sends no request and writes
    no file, whatever the remote side would answer; the cache file stays as
    it is and the object holds the cached table without its aggregate rows:
    the rows of the cached table whose entity is none of the 36 labels, each
    of them, in the order of the file. *)
Theorem download_save_data_cache_hit geo response st raw :
  cache_file st = Some raw ->
  let r := download_save_data geo response st in
  outcome r = inr tt
  /\ (forall u t, ~ In (HttpGet u t) (trace r))
  /\ (forall p, ~ In (WriteFile p) (trace r))
  /\ cache_file (final r) = Some raw
  /\ dataframe (self (final r)) = Some (remove_aggregates raw)
  /\ (forall response', download_save_data geo response' st = r)
  /\ exists cleaned,
       dataframe (self (final r)) = Some cleaned
       /\ (forall x, In x cleaned <-> In x raw /\ ~ In (Entity x) entities_to_remove)
       /\ sublist cleaned raw
       /\ (forall x, In x raw -> Entity x = "World" -> ~ In x cleaned)
       /\ length entities_to_remove = 36%nat.
Proof.
  intros Hc r. subst r.
  rewrite (download_save_data_hit_run geo response st raw Hc).
  cbn [trace outcome final self dataframe cache_file].
  split; [reflexivity|].
  split; [intros u t [H | []]; discriminate|].
  split; [intros p [H | []]; discriminate|].
  split; [reflexivity|]. split; [reflexivity|].
  split; [intros response'; apply download_save_data_hit_run; exact Hc|].
  exists (remove_aggregates raw).
  split; [reflexivity|].
  split; [intros x; apply remove_aggregates_In|].
  split; [apply remove_aggregates_sublist|].
  split; [|reflexivity].
  intros x _ Hw Hx. apply remove_aggregates_In in Hx. destruct Hx as [_ Hx].
  apply Hx. rewrite Hw. apply isin_In. reflexivity.
Qed.

(** The sample file holds a row of "World" between the rows of Canada: the
    object holds the other three rows, in the order of the file. *)
Lemma download_save_data_cache_hit_witness :
  cache_file (final (download_save_data sample_geo (inl RequestException) sample_start))
  = Some [ sample_row "Canada" 2000 1 2 1 100; sample_row "World" 2000 5 5 5 90;
           sample_row "Canada" 2001 0 0 0 104; sample_row "France" 2000 3 3 2 95 ]
  /\ dataframe (self (final (download_save_data sample_geo (inl RequestException)
                               sample_start)))
     = Some [ sample_row "Canada" 2000 1 2 1 100; sample_row "Canada" 2001 0 0 0 104;
              sample_row "France" 2000 3 3 2 95 ].
Proof.
  destruct (download_save_data_cache_hit sample_geo (inl RequestException) sample_start
              sample_raw eq_refl) as (_ & _ & _ & H1 & H2 & _).
  split; [exact H1 | exact H2].
Defined.

(** X2: when there is no cache file and the request succeeds, acquisition
    sends exactly one request, to the fixed address with a timeout of 40,
    and writes the file once; the file holds the content as served, with its
    aggregate rows, while the table kept in the object is without them: the
    rows of the content whose entity is none of the 36 labels, each of them,
    in the order served. *)
Theorem download_save_data_cache_miss geo content st :
  cache_file st = None ->
  let r := download_save_data geo (inr content) st in
  outcome r = inr tt
  /\ trace r =
       [ HttpGet url 40; WriteFile file_path;
         Print [Lit "The file has been stored in the downloads directory with the name Dataset.csv"] ]
  /\ cache_file (final r) = Some content
  /\ dataframe (self (final r)) = Some (remove_aggregates content)
  /\ exists cleaned,
       dataframe (self (final r)) = Some cleaned
       /\ (forall x, In x cleaned <-> In x content /\ ~ In (Entity x) entities_to_remove)
       /\ sublist cleaned content
       /\ (forall x, In x content -> Entity x = "World" -> ~ In x cleaned)
       /\ length entities_to_remove = 36%nat.
Proof.
  intros Hc r. subst r.
  rewrite (download_save_data_miss_run geo content st Hc).
  cbn [trace outcome final self dataframe cache_file].
  split; [reflexivity|]. split; [reflexivity|].
  split; [reflexivity|]. split; [reflexivity|].
  exists (remove_aggregates content).
  split; [reflexivity|].
  split; [intros x; apply remove_aggregates_In|].
  split; [apply remove_aggregates_sublist|].
  split; [|reflexivity].
  intros x _ Hw Hx. apply remove_aggregates_In in Hx. destruct Hx as [_ Hx].
  apply Hx. rewrite Hw. apply isin_In. reflexivity.
Qed.

(** The content served holds a row of "World": the file holds the four rows,
    the object the other three. *)
Lemma download_save_data_cache_miss_witness :
  cache_file (final (download_save_data sample_geo (inr sample_raw) (mkState init None)))
  = Some [ sample_row "Canada" 2000 1 2 1 100; sample_row "World" 2000 5 5 5 90;
           sample_row "Canada" 2001 0 0 0 104; sample_row "France" 2000 3 3 2 95 ]
  /\ dataframe (self (final (download_save_data sample_geo (inr sample_raw)
                               (mkState init None))))
     = Some [ sample_row "Canada" 2000 1 2 1 100; sample_row "Canada" 2001 0 0 0 104;
              sample_row "France" 2000 3 3 2 95 ].
Proof.
  destruct (download_save_data_cache_miss sample_geo sample_raw (mkState init None)
              eq_refl) as (_ & _ & H1 & H2 & _).
  split; [exact H1 | exact H2].
Defined.

(** X3: when there is no cache file and the request fails, its exception
    reaches the caller after the single request: no file is written, the
    cache file is still absent and the table of the object is the one it had
    before, while the boundaries are already loaded. *)
Theorem download_save_data_request_fails geo e st :
  cache_file st = None ->
  let r := download_save_data geo (inl e) st in
  outcome r = inl e
  /\ trace r = [HttpGet url 40]
  /\ cache_file (final r) = None
  /\ dataframe (self (final r)) = dataframe (self st)
  /\ geodata (self (final r)) = Some geo.
Proof.
  intros Hc r. subst r.
  rewrite (download_save_data_fail_run geo e st Hc).
  repeat split.
Qed.

Lemma download_save_data_request_fails_witness :
  outcome (download_save_data sample_geo (inl RequestException) (mkState init None))
  = inl RequestException
  /\ dataframe (self (final (download_save_data sample_geo (inl RequestException)
                               (mkState init None)))) = None.
Proof.
  destruct (download_save_data_request_fails sample_geo RequestException
              (mkState init None) eq_refl) as (H1 & _ & _ & H2 & _).
  split; [exact H1 | exact H2].
Defined.

(** After a successful acquisition the cache file exists. *)
Lemma download_save_data_leaves_cache geo response st :
  outcome (download_save_data geo response st) = inr tt ->
  exists raw,
    cache_file (final (download_save_data geo response st)) = Some raw
    /\ dataframe (self (final (download_save_data geo response st)))
       = Some (remove_aggregates raw).
Proof.
  destruct (cache_file st) as [raw|] eqn:Hc.
  - rewrite (download_save_data_hit_run geo response st raw Hc).
    intros _. exists raw. split; reflexivity.
  - destruct response as [e|content].
    + rewrite (download_save_data_fail_run geo e st Hc). discriminate.
    + rewrite (download_save_data_miss_run geo content st Hc).
      intros _. exists content. split; reflexivity.
Qed.

(** X4: a second acquisition after a successful one never sends a request,
    whatever the remote side would answer: it finds the cache file, and the
    table it leaves is the table of the first acquisition. *)
Theorem download_save_data_twice geo response geo' response' st :
  outcome (download_save_data geo response st) = inr tt ->
  let first := download_save_data geo response st in
  let second := download_save_data geo' response' (final first) in
  trace second = [Print [Lit "The path and file already exist"]]
  /\ outcome second = inr tt
  /\ dataframe (self (final second)) = dataframe (self (final first))
  /\ cache_file (final second) = cache_file (final first).
Proof.
  intros Hok first second.
  destruct (download_save_data_leaves_cache geo response st Hok) as [raw [Hc Hdf]].
  subst second. fold first in Hc, Hdf.
  rewrite (download_save_data_hit_run geo' response' (final first) raw Hc).
  cbn [trace outcome final self dataframe cache_file].
  rewrite Hdf, Hc. repeat split; reflexivity.
Qed.

Lemma download_save_data_twice_witness :
  trace (download_save_data sample_geo (inr [])
           (final (download_save_data sample_geo (inr sample_raw) (mkState init None))))
  = [Print [Lit "The path and file already exist"]].
Proof.
  exact (proj1 (download_save_data_twice sample_geo (inr sample_raw) sample_geo (inr [])
                  (mkState init None) eq_refl)).
Defined.

(** ** [countries_list] *)

(** X5: after a successful acquisition, [countries_list] returns, without
    any effect, a list without duplicates that holds exactly the entities of
    the rows kept, none of which is an aggregate label. *)
Theorem countries_list_after_acquisition geo response st :
  outcome (download_save_data geo response st) = inr tt ->
  let st' := final (download_save_data geo response st) in
  exists names cleaned,
    dataframe (self st') = Some cleaned
    /\ countries_list st' = mkResult [] st' (inr names)
    /\ List.NoDup names
    /\ (forall s, In s names <-> exists r, In r cleaned /\ Entity r = s)
    /\ (forall s, In s names -> ~ In s entities_to_remove).
Proof.
  intros Hok st'.
  destruct (download_save_data_leaves_cache geo response st Hok) as [raw [_ Hdf]].
  fold st' in Hdf.
  exists (unique (map Entity (remove_aggregates raw))), (remove_aggregates raw).
  split; [exact Hdf|].
  split; [apply countries_list_some; exact Hdf|].
  split; [apply unique_NoDup|].
  assert (forall s, In s (unique (map Entity (remove_aggregates raw))) <->
                    exists r, In r (remove_aggregates raw) /\ Entity r = s) as Hin.
  { intros s. rewrite unique_In, in_map_iff. split; intros [r [H1 H2]]; eauto. }
  split; [exact Hin|].
  intros s Hs. apply Hin in Hs. destruct Hs as [r [Hr <-]].
  apply remove_aggregates_In in Hr. tauto.
Qed.

Lemma countries_list_after_acquisition_witness :
  exists names,
    countries_list sample_state = mkResult [] sample_state (inr names)
    /\ List.NoDup names
    /\ (forall s, In s names -> ~ In s entities_to_remove).
Proof.
  destruct (countries_list_after_acquisition sample_geo (inl RequestException)
              sample_start eq_refl) as (names & cleaned & _ & Hrun & Hnodup & _ & Hagg).
  exists names. split; [exact Hrun|]. split; [exact Hnodup | exact Hagg].
Defined.

(** ** Methods that only read the object *)

Lemma read_only_ret {A} (a : A) : read_only (ret a).
Proof. intros st. reflexivity. Qed.

Lemma read_only_raise {A} e : read_only (@raise A e).
Proof. intros st. reflexivity. Qed.

Lemma read_only_emit ev : read_only (emit ev).
Proof. intros st. reflexivity. Qed.

Lemma read_only_lift {A} (x : exn + A) : read_only (lift x).
Proof. destruct x; intros st; reflexivity. Qed.

Lemma read_only_bind {A B} (m : M A) (k : A -> M B) :
  read_only m -> (forall a, read_only (k a)) -> read_only (bind m k).
Proof.
  intros Hm Hk st. unfold bind.
  destruct (outcome (m st)) as [e|a]; simpl; [apply Hm|].
  rewrite Hm. apply Hk.
Qed.

Lemma read_only_try_except {A} (m : M A) handler :
  read_only m -> read_only (try_except m handler).
Proof.
  intros Hm st. unfold try_except.
  destruct (outcome (m st)) as [e|a]; [|apply Hm].
  destruct (handler e); simpl; apply Hm.
Qed.

Lemma read_only_for_each {A} (l : list A) (body : A -> M unit) :
  (forall x, read_only (body x)) -> read_only (for_each l body).
Proof.
  intros Hbody. induction l as [|x l IH]; simpl.
  - apply read_only_ret.
  - apply read_only_bind; [apply Hbody | intros _; exact IH].
Qed.

Lemma read_only_dataframe_subscript : read_only dataframe_subscript.
Proof.
  intros st. unfold dataframe_subscript, bind. simpl.
  destruct (dataframe (self st)); reflexivity.
Qed.

Lemma read_only_dataframe_attribute attr : read_only (dataframe_attribute attr).
Proof.
  intros st. unfold dataframe_attribute, bind. simpl.
  destruct (dataframe (self st)); reflexivity.
Qed.

Lemma read_only_countries_list : read_only countries_list.
Proof.
  unfold countries_list. apply read_only_bind.
  - apply read_only_dataframe_subscript.
  - intros df. apply read_only_ret.
Qed.

Lemma read_only_check_countries available chosen valid :
  read_only (check_countries available chosen valid).
Proof.
  intros st. rewrite check_countries_run. reflexivity.
Qed.

Lemma read_only_output_area_frame entity : read_only (output_area_frame entity).
Proof.
  unfold output_area_frame. destruct entity as [e|].
  - destruct (is_world (Some e)).
    + apply read_only_bind; [apply read_only_dataframe_attribute|].
      intros df. apply read_only_ret.
    + apply read_only_bind; [apply read_only_dataframe_subscript|].
      intros df. destruct (map columns_to_plot (rows_of_entity e df));
        [apply read_only_raise | apply read_only_ret].
  - apply read_only_bind; [apply read_only_dataframe_attribute|].
    intros df. apply read_only_ret.
Qed.

Lemma read_only_plot_country arima df ic : read_only (plot_country arima df ic).
Proof.
  unfold plot_country.
  repeat (apply read_only_bind; [apply read_only_emit | intros _]).
  destruct (max_list (map Year (rows_of_entity (snd ic) df)));
    [apply read_only_emit | apply read_only_raise].
Qed.

(** X6: every method but acquisition and the choropleth leaves the object
    and the cache file exactly as they were, for every argument and in
    every state, whether it returns or raises. *)
Theorem query_methods_are_read_only arima :
  read_only countries_list
  /\ (forall entity normalize, read_only (plot_output_area entity normalize))
  /\ (forall countries, read_only (compare_output_for_countries countries))
  /\ (forall year log_scale, read_only (gapminder year log_scale))
  /\ (forall countries, read_only (predict_tfp arima countries)).
Proof.
  split; [apply read_only_countries_list|].
  split.
  { intros entity normalize. unfold plot_output_area.
    apply read_only_bind; [apply read_only_output_area_frame|].
    intros p. apply read_only_bind; [apply read_only_emit|].
    intros _. apply read_only_emit. }
  split.
  { intros countries. unfold compare_output_for_countries.
    destruct (country_names countries) as [names|]; [|apply read_only_raise].
    apply read_only_bind; [apply read_only_dataframe_subscript|].
    intros df. destruct (decide _); [|apply read_only_raise].
    apply read_only_bind; [|intros _; apply read_only_emit].
    apply read_only_for_each. intros x. apply read_only_emit. }
  split.
  { intros year log_scale. unfold gapminder.
    apply read_only_bind;
      [unfold year_as_int; apply read_only_try_except, read_only_lift|].
    intros y. apply read_only_bind; [apply read_only_dataframe_subscript|].
    intros df. apply read_only_bind; [|intros _; apply read_only_emit].
    destruct (py_eq_bool log_scale true); [apply read_only_emit|].
    destruct (py_eq_bool log_scale false); [apply read_only_emit | apply read_only_raise]. }
  intros countries. unfold predict_tfp.
  destruct countries as [| | | | |l]; try apply read_only_raise.
  destruct l as [|c l]; [apply read_only_emit|].
  apply read_only_bind; [apply read_only_countries_list|].
  intros available. apply read_only_bind; [apply read_only_check_countries|].
  intros valid. destruct valid as [|v valid]; [apply read_only_raise|].
  apply read_only_bind; [apply read_only_emit | intros _].
  apply read_only_bind; [apply read_only_dataframe_subscript | intros df].
  apply read_only_bind;
    [apply read_only_for_each; intros x; apply read_only_plot_country | intros _].
  repeat (apply read_only_bind; [apply read_only_emit | intros _]).
  apply read_only_emit.
Qed.

(** ** Methods called before acquisition *)

Lemma dataframe_subscript_none st :
  dataframe (self st) = None ->
  dataframe_subscript st =
    mkResult [] st (inl (TypeError [Lit "'NoneType' object is not subscriptable"])).
Proof. intros H. unfold dataframe_subscript, bind. simpl. rewrite H. reflexivity. Qed.

Lemma dataframe_attribute_none attr st :
  dataframe (self st) = None ->
  dataframe_attribute attr st =
    mkResult [] st
      (inl (AttributeError [Lit "'NoneType' object has no attribute '"; Lit attr; Lit "'"])).
Proof. intros H. unfold dataframe_attribute, bind. simpl. rewrite H. reflexivity. Qed.

(** X7: on an object whose table was never loaded, the choropleth raises
    the domain error "Year is not present in the Dataset" for every year
    that [int] accepts: the handler around the test of the year catches the
    failure of subscripting the missing table.  Nothing is drawn and the
    object is left as it was. *)
Theorem choropleth_before_acquisition st year y :
  dataframe (self st) = None ->
  py_int year = inr y ->
  choropleth year st =
    mkResult [] st (inl (ValueError [Lit "Year is not present in the Dataset"])).
Proof.
  intros Hdf Hy. unfold choropleth.
  rewrite (bind_pure _ _ st st y (year_as_int_ok year y st Hy)).
  assert (year_test y st =
            mkResult [] st
              (inl (TypeError [Lit "'NoneType' object is not subscriptable"]))) as Htest
      by (unfold year_test;
          rewrite (bind_raise _ _ st _ st _ (dataframe_subscript_none st Hdf));
          reflexivity).
  assert (try_except (year_test y)
            (fun _ => Some (ValueError [Lit "Year is not present in the Dataset"])) st
          = mkResult [] st (inl (ValueError [Lit "Year is not present in the Dataset"])))
    as Htry by (unfold try_except; rewrite Htest; reflexivity).
  rewrite (bind_raise _ _ st _ st _ Htry). reflexivity.
Qed.

Lemma choropleth_before_acquisition_witness :
  outcome (choropleth (PyStr "2000") (mkState init None))
  = inl (ValueError [Lit "Year is not present in the Dataset"]).
Proof.
  rewrite (choropleth_before_acquisition (mkState init None) (PyStr "2000") 2000
             eq_refl eq_refl).
  reflexivity.
Defined.

(** X8: on an object whose table was never loaded, the other methods fail
    at their first access to the table, before any effect: with the type
    error of subscripting [None], or, for the world chart, with the
    attribute error of [None.groupby].  The bubble view fails this way even
    when its flag is not a Boolean, and the forecast prints no notice. *)
Theorem queries_before_acquisition arima st :
  dataframe (self st) = None ->
  let not_subscriptable :=
    TypeError [Lit "'NoneType' object is not subscriptable"] in
  countries_list st = mkResult [] st (inl not_subscriptable)
  /\ (forall normalize,
        plot_output_area None normalize st =
          mkResult [] st
            (inl (AttributeError [Lit "'NoneType' object has no attribute '";
                                  Lit "groupby"; Lit "'"])))
  /\ (forall e normalize,
        e <> "World" ->
        plot_output_area (Some e) normalize st = mkResult [] st (inl not_subscriptable))
  /\ (forall countries names,
        country_names countries = Some names ->
        compare_output_for_countries countries st =
          mkResult [] st (inl not_subscriptable))
  /\ (forall year y log_scale,
        py_int year = inr y ->
        gapminder year log_scale st = mkResult [] st (inl not_subscriptable))
  /\ (forall c l,
        predict_tfp arima (PyList (c :: l)) st = mkResult [] st (inl not_subscriptable)).
Proof.
  intros Hdf not_subscriptable.
  pose proof (dataframe_subscript_none st Hdf) as Hsub. fold not_subscriptable in Hsub.
  assert (countries_list st = mkResult [] st (inl not_subscriptable)) as Hlist
      by (unfold countries_list; rewrite (bind_raise _ _ st _ st _ Hsub); reflexivity).
  split; [exact Hlist|].
  split.
  { intros normalize. unfold plot_output_area.
    assert (output_area_frame None st =
              mkResult [] st
                (inl (AttributeError [Lit "'NoneType' object has no attribute '";
                                      Lit "groupby"; Lit "'"]))) as Hframe
        by (unfold output_area_frame;
            rewrite (bind_raise _ _ st _ st _ (dataframe_attribute_none "groupby" st Hdf));
            reflexivity).
    rewrite (bind_raise _ _ st _ st _ Hframe). reflexivity. }
  split.
  { intros e normalize He. unfold plot_output_area.
    assert (output_area_frame (Some e) st = mkResult [] st (inl not_subscriptable))
      as Hframe.
    { unfold output_area_frame, is_world.
      destruct (String.eqb e "World") eqn:E; [apply String.eqb_eq in E; contradiction|].
      rewrite (bind_raise _ _ st _ st _ Hsub). reflexivity. }
    rewrite (bind_raise _ _ st _ st _ Hframe). reflexivity. }
  split.
  { intros countries names Hnames. unfold compare_output_for_countries.
    rewrite Hnames, (bind_raise _ _ st _ st _ Hsub). reflexivity. }
  split.
  { intros year y log_scale Hy. unfold gapminder.
    rewrite (bind_pure _ _ st st y (year_as_int_ok year y st Hy)).
    rewrite (bind_raise _ _ st _ st _ Hsub). reflexivity. }
  intros c l. unfold predict_tfp.
  rewrite (bind_raise _ _ st _ st _ Hlist). reflexivity.
Qed.

Lemma queries_before_acquisition_witness :
  outcome (gapminder (PyInt 2000) (PyStr "yes") (mkState init None))
  = inl (TypeError [Lit "'NoneType' object is not subscriptable"]).
Proof.
  destruct (queries_before_acquisition naive_forecast (mkState init None) eq_refl)
    as (_ & _ & _ & _ & H & _).
  rewrite (H (PyInt 2000) 2000 (PyStr "yes") eq_refl). reflexivity.
Defined.

(** ** [plot_output_area]: entities, the flag and the frame *)

Lemma output_area_frame_world st df entity :
  dataframe (self st) = Some df ->
  is_world entity = true ->
  output_area_frame entity st =
    mkResult [] st (inr (groupby_year_sum df, "World Output")).
Proof.
  intros Hdf Hw. unfold output_area_frame.
  destruct entity as [e|]; [rewrite Hw|];
    rewrite (bind_pure _ _ st st df (dataframe_attribute_some "groupby" st df Hdf));
    reflexivity.
Qed.

Lemma output_area_frame_entity st df e :
  dataframe (self st) = Some df ->
  e <> "World" ->
  output_area_frame (Some e) st =
    match map columns_to_plot (rows_of_entity e df) with
    | [] => mkResult [] st (inl (ValueError [Lit "Entity '"; Lit e; Lit "' not found"]))
    | frame => mkResult [] st (inr (frame, (e ++ " Output")%string))
    end.
Proof.
  intros Hdf He. unfold output_area_frame, is_world.
  destruct (String.eqb e "World") eqn:E; [apply String.eqb_eq in E; contradiction|].
  rewrite (bind_pure _ _ st st df (dataframe_subscript_some st df Hdf)).
  destruct (map columns_to_plot (rows_of_entity e df)); reflexivity.
Qed.

(** A name without a row makes the chart fail before any drawing. *)
Lemma plot_output_area_not_found st df e normalize :
  dataframe (self st) = Some df ->
  e <> "World" ->
  (forall r, In r df -> Entity r <> e) ->
  plot_output_area (Some e) normalize st =
    mkResult [] st (inl (ValueError [Lit "Entity '"; Lit e; Lit "' not found"])).
Proof.
  intros Hdf He Hnone. unfold plot_output_area.
  assert (rows_of_entity e df = []) as Hrows.
  { destruct (rows_of_entity e df) as [|r rs] eqn:E; [reflexivity|].
    assert (In r (rows_of_entity e df)) as Hr by (rewrite E; left; reflexivity).
    apply rows_of_entity_In in Hr. destruct Hr as [Hr Heq].
    exfalso. exact (Hnone r Hr Heq). }
  pose proof (output_area_frame_entity st df e Hdf He) as Hframe.
  rewrite Hrows in Hframe. simpl in Hframe.
  rewrite (bind_raise _ _ st _ st _ Hframe). reflexivity.
Qed.



(** X10: after a successful acquisition the aggregate labels have no row
    left, so asking the chart for one of them, other than "World", raises
    the domain error, while [None] and "World" always give the world chart,
    whose frame sums the rows kept. *)
Theorem plot_output_area_after_acquisition geo response st normalize :
  outcome (download_save_data geo response st) = inr tt ->
  let st' := final (download_save_data geo response st) in
  (forall label,
     In label entities_to_remove -> label <> "World" ->
     plot_output_area (Some label) normalize st' =
       mkResult [] st'
         (inl (ValueError [Lit "Entity '"; Lit label; Lit "' not found"])))
  /\ (forall entity,
        is_world entity = true ->
        outcome (plot_output_area entity normalize st') = inr tt
        /\ exists data,
             trace (plot_output_area entity normalize st')
             = [AreaPlot "World Output" data; Show]).
Proof.
  intros Hok st'.
  destruct (download_save_data_leaves_cache geo response st Hok) as [raw [_ Hdf]].
  fold st' in Hdf. split.
  - intros label Hlabel Hne.
    apply plot_output_area_not_found with (df := remove_aggregates raw);
      [exact Hdf | exact Hne |].
    intros r Hr Heq. apply remove_aggregates_In in Hr. destruct Hr as [_ Hr].
    apply Hr. rewrite Heq. exact Hlabel.
  - intros entity Hw. unfold plot_output_area.
    rewrite (bind_pure _ _ st' st' _
               (output_area_frame_world st' _ entity Hdf Hw)).
    split; [reflexivity|]. eexists. reflexivity.
Qed.

Lemma plot_output_area_after_acquisition_witness :
  plot_output_area (Some "Asia") (PyBool true) sample_state =
    mkResult [] sample_state
      (inl (ValueError [Lit "Entity '"; Lit "Asia"; Lit "' not found"])).
Proof.
  destruct (plot_output_area_after_acquisition sample_geo (inl RequestException)
              sample_start (PyBool true) eq_refl) as (H & _).
  apply (H "Asia"); [simpl; auto | discriminate].
Defined.

(** X11: the chart is normalised only when the flag is the object [True]:
    with any other value, a truthy one such as 1 or "yes" included, the run
    is the run with [False]. *)
Theorem plot_output_area_flag_identity entity normalize st :
  normalize <> PyBool true ->
  plot_output_area entity normalize st = plot_output_area entity (PyBool false) st.
Proof.
  intros Hn. unfold plot_output_area.
  destruct normalize as [|[]| | | |]; try reflexivity. congruence.
Qed.

Lemma plot_output_area_flag_identity_witness :
  plot_output_area (Some "Canada") (PyInt 1) sample_state
  = plot_output_area (Some "Canada") (PyBool false) sample_state.
Proof.
  apply plot_output_area_flag_identity. discriminate.
Defined.

(** X12: a row of three values that are finite and not negative, with a sum
    that is not zero, is rescaled to three shares between 0 and 100, and
    keeps its year. *)
Theorem normalize_row_shares r a b c :
  out_crop r = Fin a -> out_animal r = Fin b -> out_fish r = Fin c ->
  (0 <= a)%Q -> (0 <= b)%Q -> (0 <= c)%Q ->
  ~ (a + b + c == 0)%Q ->
  exists a' b' c',
    normalize_row r = mkOut (out_year r) (Fin a') (Fin b') (Fin c')
    /\ (0 <= a' <= 100)%Q /\ (0 <= b' <= 100)%Q /\ (0 <= c' <= 100)%Q.
Proof.
  intros Ha Hb Hc Ha0 Hb0 Hc0 Hs.
  assert (0 < 0 + a + b + c)%Q as Hpos.
  { destruct (Qlt_le_dec 0 (0 + a + b + c)) as [H | H]; [exact H|].
    exfalso. apply Hs. lra. }
  assert (forall x, (0 <= x)%Q -> (x <= 0 + a + b + c)%Q ->
                    (0 <= x / (0 + a + b + c) * 100 <= 100)%Q) as Hshare.
  { intros x Hx0 Hxs.
    assert (0 <= x / (0 + a + b + c))%Q as H1
        by (apply Qle_shift_div_l; [exact Hpos | lra]).
    assert (x / (0 + a + b + c) <= 1)%Q as H2
        by (apply Qle_shift_div_r; [exact Hpos | lra]).
    lra. }
  unfold normalize_row. rewrite (row_sum_finite r a b c Ha Hb Hc).
  rewrite Ha, Hb, Hc. unfold fdiv, Qsign.
  destruct (0 + a + b + c ?= 0)%Q eqn:E.
  - apply Qeq_alt in E. lra.
  - apply Qlt_alt in E. lra.
  - eexists _, _, _. split; [reflexivity|].
    repeat split; apply Hshare; lra.
Qed.

Lemma normalize_row_shares_witness :
  exists a' b' c',
    normalize_row (mkOut 2000 (Fin 1) (Fin 2) (Fin 1))
    = mkOut 2000 (Fin a') (Fin b') (Fin c')
    /\ (0 <= a' <= 100)%Q /\ (0 <= b' <= 100)%Q /\ (0 <= c' <= 100)%Q.
Proof.
  apply (normalize_row_shares (mkOut 2000 (Fin 1) (Fin 2) (Fin 1)) 1 2 1);
    try reflexivity; try discriminate.
Defined.

(** *** The keys of a grouping *)






(** ** [compare_output_for_countries]: the argument and the order of names *)

Lemma all_str_names names : all_str (map PyStr names) = Some names.
Proof.
  induction names as [|s names IH]; [reflexivity|].
  simpl. rewrite IH. reflexivity.
Qed.

Lemma all_str_None l :
  (exists v, In v l /\ forall s, v <> PyStr s) -> all_str l = None.
Proof.
  intros [v [Hv Hns]]. induction l as [|x l IH]; [contradiction|].
  destruct Hv as [-> | Hv].
  - destruct v; try reflexivity. exfalso. exact (Hns s eq_refl).
  - simpl. destruct x; try reflexivity. rewrite (IH Hv). reflexivity.
Qed.

(** X14: an argument that is neither a string nor a list of strings makes
    the comparison raise its type error before the table is looked at: the
    error is the same in every state, a state without table included, and
    nothing is drawn. *)
Theorem compare_output_type_error countries st :
  (forall s, countries <> PyStr s) ->
  (forall l, countries = PyList l -> exists v, In v l /\ forall s, v <> PyStr s) ->
  compare_output_for_countries countries st =
    mkResult [] st
      (inl (TypeError [Lit "Countries must be a string or a list of strings."])).
Proof.
  intros Hstr Hlist. unfold compare_output_for_countries.
  assert (country_names countries = None) as ->; [|reflexivity].
  destruct countries as [| | | |s|l]; try reflexivity.
  - exfalso. exact (Hstr s eq_refl).
  - simpl. apply all_str_None. apply Hlist. reflexivity.
Qed.

Lemma compare_output_type_error_witness :
  compare_output_for_countries (PyList [PyStr "Canada"; PyInt 3]) (mkState init None) =
    mkResult [] (mkState init None)
      (inl (TypeError [Lit "Countries must be a string or a list of strings."])).
Proof.
  apply compare_output_type_error; [discriminate|].
  intros l [= <-]. exists (PyInt 3). split; [simpl; auto | discriminate].
Defined.

Lemma rows_of_entity_filter (f : row -> bool) c df :
  (forall r, Entity r = c -> f r = true) ->
  rows_of_entity c (List.filter f df) = rows_of_entity c df.
Proof.
  intros Hf. unfold rows_of_entity. induction df as [|r df IH]; [reflexivity|].
  simpl. destruct (String.eqb (Entity r) c) eqn:E.
  - apply String.eqb_eq in E. rewrite (Hf r E). simpl.
    rewrite (proj2 (String.eqb_eq _ _) E), IH. reflexivity.
  - destruct (f r); simpl; [rewrite E|]; exact IH.
Qed.

(** The series of a requested country does not depend on the other names
    requested. *)
Lemma total_output_alone names df c :
  In c names -> total_output names df c = total_output [c] df c.
Proof.
  intros Hc. unfold total_output.
  rewrite (rows_of_entity_filter (fun r => isin (Entity r) names) c df)
    by (intros r <-; apply isin_In; exact Hc).
  rewrite (rows_of_entity_filter (fun r => isin (Entity r) [c]) c df)
    by (intros r <-; apply isin_In; left; reflexivity).
  reflexivity.
Qed.

Lemma flat_map_ext_In {A B} (f g : A -> list B) l :
  (forall x, In x l -> f x = g x) -> flat_map f l = flat_map g l.
Proof.
  intros H. induction l as [|x l IH]; [reflexivity|].
  simpl. rewrite (H x) by (left; reflexivity).
  rewrite IH by (intros y Hy; apply H; right; exact Hy). reflexivity.
Qed.

(** The whole run on a list of names, with a table loaded. *)
Lemma compare_output_run st df names :
  dataframe (self st) = Some df ->
  compare_output_for_countries (PyList (map PyStr names)) st =
    if decide ((list_to_set names ∖ list_to_set (unique (map Entity df)) : gset string) = ∅)
    then mkResult (flat_map (country_line df) names ++ [Show]) st (inr tt)
    else mkResult [] st
           (inl (ValueError
                   [Lit "The following countries are not in the dataset: ";
                    FmtSet (list_to_set names ∖ list_to_set (unique (map Entity df)))])).
Proof.
  intros Hdf. unfold compare_output_for_countries.
  change (country_names (PyList (map PyStr names))) with (all_str (map PyStr names)).
  rewrite all_str_names.
  rewrite (bind_pure _ _ st st df (dataframe_subscript_some st df Hdf)).
  destruct (decide _) as [_ | _]; [|reflexivity].
  rewrite (bind_run _ _ st _ st tt
             (for_each_emits _
                (fun country =>
                   [LinePlot (map fst (total_output names df country))
                      (map snd (total_output names df country)) country])
                names st (fun x _ => eq_refl))).
  rewrite emit_run. cbn [trace final outcome]. f_equal. f_equal.
  apply flat_map_ext_In. intros c Hc. unfold country_line.
  rewrite (total_output_alone names df c Hc). reflexivity.
Qed.

(** X15: the comparison does not depend on the order of the names.  For
    two lists of names that are permutations of one another the outcome is
    the same, the calls made are the same up to their order, and the line
    of each country is the one drawn when the country is requested alone. *)
Theorem compare_output_order_independent st df names names' :
  dataframe (self st) = Some df ->
  Permutation names names' ->
  let r := compare_output_for_countries (PyList (map PyStr names)) st in
  let r' := compare_output_for_countries (PyList (map PyStr names')) st in
  outcome r = outcome r'
  /\ Permutation (trace r) (trace r')
  /\ (forall xs ys c,
        In (LinePlot xs ys c) (trace r) ->
        In c names
        /\ xs = map fst (total_output [c] df c)
        /\ ys = map snd (total_output [c] df c)).
Proof.
  intros Hdf Hperm r r'. subst r r'.
  rewrite !(compare_output_run st df _ Hdf).
  assert ((list_to_set names : gset string) = list_to_set names') as Hset.
  { apply set_eq. intros s. rewrite !elem_of_list_to_set, !list_elem_of_In.
    split; apply Permutation_in; [exact Hperm | symmetry; exact Hperm]. }
  rewrite <- Hset.
  destruct (decide _) as [_ | _]; cbn [trace outcome].
  - split; [reflexivity|]. split.
    + apply Permutation_app_tail, Permutation_flat_map, Hperm.
    + intros xs ys c H. apply in_app_or in H. destruct H as [H | [H | []]];
        [|discriminate].
      apply in_flat_map in H. destruct H as [c' [Hc' [[= <- <- <-] | []]]].
      auto.
  - split; [reflexivity|]. split; [constructor|]. intros xs ys c [].
Qed.

Lemma compare_output_order_independent_witness :
  Permutation
    (trace (compare_output_for_countries (PyList [PyStr "Canada"; PyStr "France"])
              sample_state))
    (trace (compare_output_for_countries (PyList [PyStr "France"; PyStr "Canada"])
              sample_state)).
Proof.
  exact (proj1 (proj2 (compare_output_order_independent sample_state sample_clean
                         ["Canada"; "France"] ["France"; "Canada"] eq_refl
                         (perm_swap _ _ _)))).
Defined.

(** ** [gapminder]: the points and the errors *)

Lemma rows_of_year_In r y df : In r (rows_of_year y df) <-> In r df /\ Year r = y.
Proof. unfold rows_of_year. rewrite filter_In, Z.eqb_eq. reflexivity. Qed.

Lemma rows_of_year_absent y df : ~ In y (map Year df) -> rows_of_year y df = [].
Proof.
  intros Hy. destruct (rows_of_year y df) as [|r rs] eqn:E; [reflexivity|].
  assert (In r (rows_of_year y df)) as Hr by (rewrite E; left; reflexivity).
  apply rows_of_year_In in Hr. destruct Hr as [Hr <-].
  exfalso. apply Hy, in_map, Hr.
Qed.

(** The whole run for a year that [int] accepts, with a table loaded. *)
Lemma gapminder_run st df year y log_scale :
  dataframe (self st) = Some df ->
  py_int year = inr y ->
  gapminder year log_scale st =
    if py_eq_bool log_scale true then
      mkResult
        [ Relplot "fertilizer_quantity_logs" "output_quantity_logs"
            (map (fun r => (Log (fertilizer_quantity r), Log (output_quantity r),
                            irrigation_quantity r, ag_land_quantity r))
                 (rows_of_year y df));
          Show ] st (inr tt)
    else if py_eq_bool log_scale false then
      mkResult
        [ Relplot "fertilizer_quantity" "output_quantity"
            (map (fun r => (Plain (fertilizer_quantity r), Plain (output_quantity r),
                            irrigation_quantity r, ag_land_quantity r))
                 (rows_of_year y df));
          Show ] st (inr tt)
    else mkResult [] st (inl (TypeError [Lit "log_scale parameter must be a Boolean"])).
Proof.
  intros Hdf Hy. unfold gapminder.
  rewrite (bind_pure _ _ st st y (year_as_int_ok year y st Hy)).
  rewrite (bind_pure _ _ st st df (dataframe_subscript_some st df Hdf)).
  destruct (py_eq_bool log_scale true); [reflexivity|].
  destruct (py_eq_bool log_scale false); reflexivity.
Qed.

(** X16: with a table loaded, a year that [int] accepts and a flag equal to
    [True] or [False], the bubble view draws one point per row of that year
    and nothing else; on either scale the size of a point is the irrigation
    of its row and its colour the agricultural land.  There is no test of
    the year: for a year without row the view is drawn with no point. *)
Theorem gapminder_points st df year y log_scale :
  dataframe (self st) = Some df ->
  py_int year = inr y ->
  py_eq_bool log_scale true = true \/ py_eq_bool log_scale false = true ->
  let r := gapminder year log_scale st in
  outcome r = inr tt
  /\ exists x_name y_name points,
       trace r = [Relplot x_name y_name points; Show]
       /\ length points = length (rows_of_year y df)
       /\ map (fun p => snd (fst p)) points
          = map irrigation_quantity (rows_of_year y df)
       /\ map snd points = map ag_land_quantity (rows_of_year y df)
       /\ (~ In y (map Year df) -> points = [])
       /\ (forall x, In x (rows_of_year y df) <-> In x df /\ Year x = y)
       /\ sublist (rows_of_year y df) df.
Proof.
  intros Hdf Hy Hflag r. subst r.
  assert (forall x, In x (rows_of_year y df) <-> In x df /\ Year x = y) as Hrows
      by (intros x; unfold rows_of_year; rewrite filter_In, Z.eqb_eq; reflexivity).
  assert (sublist (rows_of_year y df) df) as Hsub.
  { unfold rows_of_year. clear. induction df as [|x df IH]; [constructor|].
    cbn [List.filter]. destruct (Year x =? y); constructor; exact IH. }
  rewrite (gapminder_run st df year y log_scale Hdf Hy).
  destruct (py_eq_bool log_scale true).
  - split; [reflexivity|]. eexists _, _, _. split; [reflexivity|].
    rewrite length_map, !map_map.
    split; [reflexivity|]. split; [reflexivity|]. split; [reflexivity|].
    split; [|split; assumption].
    intros Habs. rewrite (rows_of_year_absent y df Habs). reflexivity.
  - destruct (py_eq_bool log_scale false); [|destruct Hflag; discriminate].
    split; [reflexivity|]. eexists _, _, _. split; [reflexivity|].
    rewrite length_map, !map_map.
    split; [reflexivity|]. split; [reflexivity|]. split; [reflexivity|].
    split; [|split; assumption].
    intros Habs. rewrite (rows_of_year_absent y df Habs). reflexivity.
Qed.

Lemma gapminder_points_witness :
  exists x_name y_name,
    trace (gapminder (PyInt 1066) (PyBool false) sample_state)
    = [Relplot x_name y_name []; Show].
Proof.
  destruct (gapminder_points sample_state sample_clean (PyInt 1066) 1066 (PyBool false)
              eq_refl eq_refl (or_intror eq_refl))
    as (_ & x_name & y_name & points & Htrace & _ & _ & _ & Hempty & _).
  exists x_name, y_name. rewrite Htrace, Hempty; [reflexivity|].
  simpl. intros [H | [H | [H | []]]]; discriminate.
Defined.

(** What [year_as_int] raises is never a value error. *)
Lemma year_as_int_no_value_error year st e :
  outcome (year_as_int year st) = inl e -> forall m, e <> ValueError m.
Proof.
  unfold year_as_int, try_except, lift.
  destruct (py_int year) as [e'|y] eqn:Hy; simpl; [|discriminate].
  destruct e'; simpl; intros [= <-]; discriminate.
Qed.

Lemma year_as_int_value_error year st m :
  py_int year = inl (ValueError m) ->
  year_as_int year st = mkResult [] st (inl (TypeError [Lit "Year must be an integer"])).
Proof.
  intros Hy. unfold year_as_int, try_except, lift. rewrite Hy. reflexivity.
Qed.

(** X17: the bubble view never raises a value error, whatever its arguments
    and whatever the state of the object: a value error of [int] is turned
    into a type error and no later step raises one. *)
Theorem gapminder_no_value_error year log_scale st msg :
  outcome (gapminder year log_scale st) <> inl (ValueError msg).
Proof.
  destruct (py_int year) as [e|y] eqn:Hy.
  - unfold gapminder.
    destruct (outcome (year_as_int year st)) as [e'|y'] eqn:Hout.
    + rewrite (bind_err _ _ st e' Hout). simpl. intros [= H].
      exact (year_as_int_no_value_error year st e' Hout msg H).
    + exfalso. unfold year_as_int, try_except, lift in Hout. rewrite Hy in Hout.
      simpl in Hout. destruct e; simpl in Hout; discriminate.
  - destruct (dataframe (self st)) as [df|] eqn:Hdf.
    + rewrite (gapminder_run st df year y log_scale Hdf Hy).
      destruct (py_eq_bool log_scale true); [discriminate|].
      destruct (py_eq_bool log_scale false); discriminate.
    + unfold gapminder.
      rewrite (bind_pure _ _ st st y (year_as_int_ok year y st Hy)).
      rewrite (bind_raise _ _ st _ st _ (dataframe_subscript_none st Hdf)).
      discriminate.
Qed.

(** What [int] makes of some strings: blanks around the literal, a sign,
    single underscores between digits and decimal digits of other scripts
    are read; the separators of codes 28 to 31 are no white space, and a run
    of more than 4300 digits is refused before what follows it is looked
    at. *)
Lemma int_of_string_examples :
  int_of_string " 2_000 " = inr 2000
  /\ int_of_string "-0042" = inr (-42)
  /\ int_of_string fullwidth_2000 = inr 2000
  /\ int_of_string separator_2000 = inl Invalid
  /\ int_of_string "20x0" = inl Invalid
  /\ int_of_string "2__000" = inl Invalid
  /\ int_of_string "_2000" = inl Invalid
  /\ int_of_string "2000_" = inl Invalid
  /\ int_of_string "+ 2000" = inl Invalid
  /\ int_of_string "" = inl Invalid
  /\ int_of_string (string_of_list_ascii (repeat "1"%char 4300)) <> inl (TooLong 4300)
  /\ int_of_string (string_of_list_ascii (repeat "1"%char 4301 ++ ["x"%char]))
     = inl (TooLong 4301).
Proof.
  repeat split; try (vm_compute; reflexivity).
  vm_compute. discriminate.
Qed.

(** X18: a year that [int] refuses with a value error, such as a string
    that is not a number or a NaN, makes both the bubble view and the
    choropleth raise the type error "Year must be an integer" at once:
    nothing is drawn and the object is untouched; in particular the
    choropleth has not renamed the boundaries. *)
Theorem year_value_error_is_type_error year log_scale st m :
  py_int year = inl (ValueError m) ->
  gapminder year log_scale st =
    mkResult [] st (inl (TypeError [Lit "Year must be an integer"]))
  /\ choropleth year st =
       mkResult [] st (inl (TypeError [Lit "Year must be an integer"])).
Proof.
  intros Hy. split.
  - unfold gapminder.
    rewrite (bind_raise _ _ st _ st _ (year_as_int_value_error year st m Hy)).
    reflexivity.
  - unfold choropleth.
    rewrite (bind_raise _ _ st _ st _ (year_as_int_value_error year st m Hy)).
    reflexivity.
Qed.

Lemma year_value_error_is_type_error_witness :
  choropleth (PyStr "20x0") sample_state =
    mkResult [] sample_state (inl (TypeError [Lit "Year must be an integer"]))
  /\ gapminder (PyStr separator_2000) (PyBool true) sample_state =
       mkResult [] sample_state (inl (TypeError [Lit "Year must be an integer"]))
  /\ choropleth (PyFloat NaN) sample_state =
       mkResult [] sample_state (inl (TypeError [Lit "Year must be an integer"])).
Proof.
  split; [|split].
  - exact (proj2 (year_value_error_is_type_error (PyStr "20x0") (PyBool true)
                    sample_state _ eq_refl)).
  - exact (proj1 (year_value_error_is_type_error (PyStr separator_2000) (PyBool true)
                    sample_state _ eq_refl)).
  - exact (proj2 (year_value_error_is_type_error (PyFloat NaN) (PyBool true)
                    sample_state _ eq_refl)).
Defined.

(** ** [choropleth]: the renaming and the join *)

Lemma rename_dict_target n t :
  rename_dict !! n = Some t -> rename_dict !! t = None.
Proof.
  unfold rename_dict. intros H.
  repeat (apply lookup_insert_Some in H;
          destruct H as [[_ <-] | [_ H]]; [vm_compute; reflexivity|]).
  rewrite lookup_empty in H. discriminate.
Qed.

(** The six entries of the dictionary. *)
Lemma rename_dict_entries n t :
  rename_dict !! n = Some t <->
  In (n, t)
    [ ("United States of America", "United States");
      ("Central African Rep.", "Central African Republic");
      ("Solomon Is.", "Solomon Islands");
      ("eSwatini", "Eswatini");
      ("Bosnia and Herz.", "Bosnia and Herzegovina");
      ("Dem. Rep. Congo", "Democratic Republic of Congo") ].
Proof.
  unfold rename_dict. split.
  - intros H.
    repeat (apply lookup_insert_Some in H;
            destruct H as [[<- <-] | [_ H]]; [simpl; tauto|]).
    rewrite lookup_empty in H. discriminate.
  - intros H. simpl in H.
    repeat (destruct H as [[= <- <-] | H]; [vm_compute; reflexivity|]).
    contradiction.
Qed.

(** Renaming a renamed boundary changes nothing. *)
Lemma replace_name_idempotent g :
  replace_name rename_dict (replace_name rename_dict g) = replace_name rename_dict g.
Proof.
  unfold replace_name. cbn [name geometry].
  destruct (rename_dict !! name g) as [t|] eqn:E.
  - change (default (name g) (Some t)) with t.
    rewrite (rename_dict_target _ _ E). reflexivity.
  - change (default (name g) None) with (name g).
    rewrite E. reflexivity.
Qed.

(** X19: the choropleth renames the boundaries of the object in place with
    its fixed dictionary, which it also stores in the object, and touches
    neither the table nor the cache file; renaming is idempotent, so a
    second call, with any year, leaves the object exactly as the first call
    left it. *)
Theorem choropleth_renames_once st df geo year y year' y' :
  dataframe (self st) = Some df ->
  geodata (self st) = Some geo ->
  py_int year = inr y ->
  py_int year' = inr y' ->
  let st1 := final (choropleth year st) in
  st1 = mkState {| dataframe := Some df;
                   geodata := Some (map (replace_name rename_dict) geo);
                   merge_dict := rename_dict |} (cache_file st)
  /\ final (choropleth year' st1) = st1
  /\ (forall n t,
        rename_dict !! n = Some t <->
        In (n, t)
          [ ("United States of America", "United States");
            ("Central African Rep.", "Central African Republic");
            ("Solomon Is.", "Solomon Islands");
            ("eSwatini", "Eswatini");
            ("Bosnia and Herz.", "Bosnia and Herzegovina");
            ("Dem. Rep. Congo", "Democratic Republic of Congo") ])
  /\ (forall g,
        geometry (replace_name rename_dict g) = geometry g
        /\ (forall t, rename_dict !! name g = Some t ->
                      name (replace_name rename_dict g) = t)
        /\ (rename_dict !! name g = None ->
            name (replace_name rename_dict g) = name g)).
Proof.
  intros Hdf Hgeo Hy Hy' st1. subst st1.
  rewrite (choropleth_run st df geo year y Hdf Hgeo Hy). cbn [final].
  split; [reflexivity|].
  split; [|split;
           [apply rename_dict_entries
           |intros g; unfold replace_name; cbn [name geometry];
            split; [reflexivity|];
            split; [intros t ->; reflexivity | intros ->; reflexivity]]].
  rewrite (choropleth_run
             (mkState {| dataframe := Some df;
                         geodata := Some (map (replace_name rename_dict) geo);
                         merge_dict := rename_dict |} (cache_file st))
             df (map (replace_name rename_dict) geo) year' y' eq_refl eq_refl Hy').
  cbn [final cache_file]. do 3 f_equal.
  rewrite map_map. apply map_ext. intros g. apply replace_name_idempotent.
Qed.

Lemma choropleth_renames_once_witness :
  final (choropleth (PyInt 2001) (final (choropleth (PyInt 2000) sample_state)))
  = final (choropleth (PyInt 2000) sample_state)
  /\ geodata (self (final (choropleth (PyInt 2000) sample_state)))
     = Some [ mkGeo "Canada" 1; mkGeo "United States" 2; mkGeo "France" 3 ].
Proof.
  destruct (choropleth_renames_once sample_state sample_clean sample_geo
              (PyInt 2000) 2000 (PyInt 2001) 2001 eq_refl eq_refl eq_refl eq_refl)
    as (H1 & H2 & _).
  split; [exact H2|]. rewrite H1. vm_compute. reflexivity.
Defined.

Lemma merge_left_In g r geo df :
  In (g, Some r) (merge_left geo df) <-> In g geo /\ In r df /\ Entity r = name g.
Proof.
  unfold merge_left. rewrite in_flat_map. split.
  - intros [g0 [Hg0 H]].
    destruct (rows_of_entity (name g0) df) as [|x xs] eqn:E.
    + destruct H as [[= _ ] | []].
    + apply in_map_iff in H. destruct H as [r0 [[= <- <-] Hr0]].
      rewrite <- E in Hr0. apply rows_of_entity_In in Hr0. tauto.
  - intros (Hg & Hr & He). exists g. split; [exact Hg|].
    assert (In r (rows_of_entity (name g) df)) as Hin
        by (apply rows_of_entity_In; auto).
    destruct (rows_of_entity (name g) df) as [|x xs] eqn:E; [contradiction|].
    apply in_map_iff. exists r. split; [reflexivity | exact Hin].
Qed.

Lemma merged_of_year_In g r y merged :
  In (g, r) (merged_of_year y merged) <-> In (g, Some r) merged /\ Year r = y.
Proof.
  unfold merged_of_year. rewrite in_flat_map. split.
  - intros [[g0 o] [Hp H]]. cbn [fst snd] in H.
    destruct o as [r0|]; [|contradiction].
    destruct (Year r0 =? y) eqn:E; [|contradiction].
    destruct H as [[= <- <-] | []]. apply Z.eqb_eq in E. auto.
  - intros [Hp Hy]. exists (g, Some r). split; [exact Hp|].
    cbn [fst snd]. rewrite (proj2 (Z.eqb_eq _ _) Hy). left. reflexivity.
Qed.

(** X20: the choropleth hands to the renderer exactly the pairs of a
    renamed boundary and a row of the table such that the entity of the row
    is the name of the boundary and the year of the row is the year asked
    for: a boundary without such a row is not drawn, nor is a row without
    boundary.  When there is at least one pair the call returns and the
    chart is shown; when there is none the renderer fails and nothing is
    shown. *)
Theorem choropleth_draws_matching_rows st df geo year y :
  dataframe (self st) = Some df ->
  geodata (self st) = Some geo ->
  py_int year = inr y ->
  exists data vmin vmax,
    trace (choropleth year st)
    = GeoPlot "tfp" data vmin vmax :: match data with [] => [] | _ :: _ => [Show] end
    /\ outcome (choropleth year st)
       = match data with
         | [] => inl (ValueError [Lit "aspect must be finite and positive"])
         | _ :: _ => inr tt
         end
    /\ forall g r,
         In (g, r) data <->
         (exists g0, In g0 geo /\ g = replace_name rename_dict g0)
         /\ In r df /\ Entity r = name g /\ Year r = y.
Proof.
  intros Hdf Hgeo Hy.
  rewrite (choropleth_run st df geo year y Hdf Hgeo Hy). cbv zeta. cbn [trace outcome].
  eexists _, _, _. split; [reflexivity|]. split; [reflexivity|].
  intros g r. rewrite merged_of_year_In, merge_left_In, in_map_iff.
  split.
  - intros [[[g0 [<- Hg0]] [Hr He]] Hyr]. eauto 8.
  - intros [[g0 [Hg0 ->]] [Hr [He Hyr]]]. eauto 8.
Qed.

Lemma choropleth_draws_matching_rows_witness :
  exists data vmin vmax,
    trace (choropleth (PyInt 2000) sample_state) = [GeoPlot "tfp" data vmin vmax; Show]
    /\ forall g r,
         In (g, r) data <->
         (exists g0, In g0 sample_geo /\ g = replace_name rename_dict g0)
         /\ In r sample_clean /\ Entity r = name g /\ Year r = 2000.
Proof.
  destruct (choropleth_draws_matching_rows sample_state sample_clean sample_geo
              (PyInt 2000) 2000 eq_refl eq_refl eq_refl)
    as (data & vmin & vmax & Htrace & _ & Hrows).
  exists data, vmin, vmax. split; [|exact Hrows].
  rewrite Htrace. destruct data as [|p data]; [exfalso | reflexivity].
  apply (proj2 (Hrows (mkGeo "Canada" 1) (sample_row "Canada" 2000 1 2 1 100))).
  split; [exists (mkGeo "Canada" 1); split; [left; reflexivity | reflexivity]|].
  split; [left; reflexivity|]. split; reflexivity.
Defined.

(** ** [predict_tfp]: the lines of the chart *)

Lemma enumerate_lookup_from {A} (l : list A) (s i : nat) x :
  l !! i = Some x -> In ((s + i)%nat, x) (zip (seq s (length l)) l).
Proof.
  revert s i. induction l as [|y l IH]; intros s i H; [discriminate|].
  destruct i as [|i]; simpl in *.
  - injection H as ->. left. f_equal. lia.
  - right. replace (s + S i)%nat with (S s + i)%nat by lia. apply IH. exact H.
Qed.

Lemma enumerate_lookup {A} (l : list A) i x :
  l !! i = Some x -> In (i, x) (enumerate l).
Proof. intros H. exact (enumerate_lookup_from l 0 i x H). Qed.

Lemma accepted_length available chosen :
  (length (accepted available chosen) <= length chosen)%nat.
Proof.
  induction chosen as [|c r IH]; simpl; [lia|].
  destruct (py_in c available); simpl; lia.
Qed.

Section Forecast_lines.

Variable arima : list fval -> nat * nat * nat -> nat -> fval.

(** X21: when at least one of the first three names is in the table, at
    most three countries are drawn, whatever the length of the list.  The
    country in position [i] among the valid ones gets two lines of the same
    colour [i]: a solid one through all its rows, in table order, and a
    dashed one for its forecast; the title and the legend name the valid
    countries in order, and the chart is shown last. *)
Theorem predict_tfp_lines st df l :
  dataframe (self st) = Some df ->
  let valid := accepted (unique (map Entity df)) (take 3 l) in
  let r := predict_tfp arima (PyList l) st in
  valid <> [] ->
  (length valid <= 3)%nat
  /\ (forall i c,
        valid !! i = Some c ->
        In (AxisPlot (map Year (rows_of_entity c df)) (map tfp (rows_of_entity c df))
              i "-" (c ++ " actual")%string) (trace r)
        /\ In (AxisPlot (seqZ (last_year df c + 1) 28) (forecast_of arima df c)
                 i "--" (c ++ " predicted")%string) (trace r))
  /\ In (AxisSetTitle ("Actual and Predicted TFP for " ++ join ", " valid)%string)
        (trace r)
  /\ In (AxisLegend (flat_map (fun c => [c ++ " actual"; c ++ " predicted"]%string) valid))
        (trace r)
  /\ List.last (trace r) Subplots = Show.
Proof.
  intros Hdf valid r Hvalid.
  assert (l <> []) as Hl by (intros ->; apply Hvalid; reflexivity).
  pose proof (predict_tfp_run arima st df l Hdf Hl) as Hrun. cbv zeta in Hrun.
  fold valid r in Hrun.
  split.
  { subst valid.
    pose proof (accepted_length (unique (map Entity df)) (take 3 l)) as H1.
    rewrite length_take in H1. lia. }
  destruct valid as [|v valid'] eqn:E; [congruence|].
  rewrite Hrun. cbn [trace].
  split.
  { intros i c Hic. apply enumerate_lookup in Hic.
    assert (forall ev,
              In ev (country_events arima df (last_year df c) (i, c)) ->
              In ev (map notice (rejected (unique (map Entity df)) (take 3 l))
                     ++ Subplots
                     :: flat_map
                          (fun ic => country_events arima df (last_year df (snd ic)) ic)
                          (enumerate (v :: valid'))
                     ++ [ AxisSetTitle
                            ("Actual and Predicted TFP for " ++ join ", " (v :: valid'))%string;
                          AxisLegend
                            (flat_map (fun c => [c ++ " actual"; c ++ " predicted"]%string)
                               (v :: valid'));
                          Show ])) as Hin.
    { intros ev Hev. apply in_or_app. right. right. apply in_or_app. left.
      apply in_flat_map. exists (i, c). split; [exact Hic | exact Hev]. }
    split; apply Hin; unfold country_events; cbn [fst snd]; simpl; auto. }
  split.
  { apply in_or_app. right. right. apply in_or_app. right. simpl. auto. }
  split.
  { apply in_or_app. right. right. apply in_or_app. right. simpl. auto. }
  rewrite app_comm_cons, app_assoc.
  change [AxisSetTitle ("Actual and Predicted TFP for " ++ join ", " (v :: valid'))%string;
          AxisLegend
            (flat_map (fun c => [c ++ " actual"; c ++ " predicted"]%string) (v :: valid'));
          Show]
    with ([AxisSetTitle ("Actual and Predicted TFP for " ++ join ", " (v :: valid'))%string;
           AxisLegend
             (flat_map (fun c => [c ++ " actual"; c ++ " predicted"]%string)
                (v :: valid'))] ++ [Show]).
  rewrite app_assoc. apply List.last_last.
Qed.

End Forecast_lines.

Lemma predict_tfp_lines_witness :
  In (AxisPlot [2000; 2001] [Fin 100; Fin 104] 0 "-" "Canada actual")
     (trace (predict_tfp naive_forecast (PyList two_names) sample_state)).
Proof.
  destruct (predict_tfp_lines naive_forecast sample_state sample_clean two_names eq_refl
              ltac:(discriminate)) as (_ & H & _).
  exact (proj1 (H 0%nat "Canada" eq_refl)).
Defined.

(** ** [plot_quantity_correlations]: the mask *)

Lemma mask_cell_alter_other m a b i j :
  (a, b) <> (i, j) ->
  mask_cell (alter (fun row => <[b := true]> row) a m) i j = mask_cell m i j.
Proof.
  intros Hne. unfold mask_cell. rewrite list_lookup_alter.
  destruct (decide (a = i)) as [-> | Hai]; [|reflexivity].
  destruct (m !! i) as [row|]; [|reflexivity]. simpl.
  apply list_lookup_insert_ne. congruence.
Qed.

Lemma mask_cell_alter_same m i j v :
  mask_cell m i j = Some v ->
  mask_cell (alter (fun row => <[j := true]> row) i m) i j = Some true.
Proof.
  unfold mask_cell. rewrite list_lookup_alter.
  destruct (decide (i = i)) as [_ | H]; [|congruence].
  destruct (m !! i) as [row|]; [|discriminate]. simpl.
  intros H. apply list_lookup_insert_eq. apply lookup_lt_Some in H. exact H.
Qed.

Lemma set_true_keeps m indices i j :
  mask_cell m i j = Some true -> mask_cell (set_true m indices) i j = Some true.
Proof.
  revert m. induction indices as [|[a b] indices IH]; intros m H; [exact H|].
  unfold set_true. cbn [foldl fst snd]. apply IH.
  destruct (decide ((a, b) = (i, j))) as [[= -> ->] | Hne].
  - apply mask_cell_alter_same with (v := true). exact H.
  - rewrite mask_cell_alter_other by exact Hne. exact H.
Qed.

Lemma set_true_sets m indices i j v :
  In (i, j) indices ->
  mask_cell m i j = Some v ->
  mask_cell (set_true m indices) i j = Some true.
Proof.
  revert m v. induction indices as [|[a b] indices IH]; intros m v Hin H; [contradiction|].
  unfold set_true. cbn [foldl fst snd].
  destruct (decide ((a, b) = (i, j))) as [[= -> ->] | Hne].
  - apply set_true_keeps. apply mask_cell_alter_same with (v := v). exact H.
  - destruct Hin as [Heq | Hin]; [congruence|].
    apply (IH _ v Hin). rewrite mask_cell_alter_other by exact Hne. exact H.
Qed.

Lemma set_true_other m indices i j :
  ~ In (i, j) indices -> mask_cell (set_true m indices) i j = mask_cell m i j.
Proof.
  revert m. induction indices as [|[a b] indices IH]; intros m Hin; [reflexivity|].
  unfold set_true. cbn [foldl fst snd].
  fold (set_true (alter (fun row => <[b := true]> row) a m) indices).
  rewrite IH by (intros H; apply Hin; right; exact H).
  apply mask_cell_alter_other. intros Heq. apply Hin. left. exact Heq.
Qed.

Lemma zeros_like_cell n i j :
  (i < n)%nat -> (j < n)%nat -> mask_cell (zeros_like n) i j = Some false.
Proof.
  intros Hi Hj. unfold mask_cell, zeros_like.
  rewrite (lookup_replicate_2 n _ i Hi). apply lookup_replicate_2. exact Hj.
Qed.

Lemma triu_indices_from_In n i j :
  In (i, j) (triu_indices_from n) <-> (i <= j)%nat /\ (j < n)%nat.
Proof.
  unfold triu_indices_from. rewrite in_flat_map. split.
  - intros [a [Ha H]]. apply in_map_iff in H. destruct H as [b [[= -> ->] Hb]].
    apply in_seq in Ha. apply in_seq in Hb. lia.
  - intros [Hij Hj]. exists i. split; [apply in_seq; lia|].
    apply in_map_iff. exists j. split; [reflexivity | apply in_seq; lia].
Qed.

(** X22: in the mask handed to the heat map of [n] columns, the cell of row
    [i] and column [j] is set, and so hidden, exactly when [i <= j]: the
    diagonal is hidden with the upper triangle, and the cells shown are
    those strictly below the diagonal. *)
Theorem correlation_mask_cell n i j :
  (i < n)%nat -> (j < n)%nat ->
  mask_cell (correlation_mask n) i j = Some (bool_decide (i <= j)%nat).
Proof.
  intros Hi Hj. unfold correlation_mask.
  destruct (decide (i <= j)%nat) as [Hij | Hij].
  - rewrite (bool_decide_eq_true_2 _ Hij).
    apply set_true_sets with (v := false).
    + apply triu_indices_from_In. lia.
    + apply zeros_like_cell; assumption.
  - rewrite (bool_decide_eq_false_2 _ Hij).
    rewrite set_true_other by (rewrite triu_indices_from_In; lia).
    apply zeros_like_cell; assumption.
Qed.

Lemma correlation_mask_cell_witness :
  mask_cell (correlation_mask 3) 1 1 = Some true
  /\ mask_cell (correlation_mask 3) 2 1 = Some false.
Proof.
  split.
  - exact (correlation_mask_cell 3 1 1 ltac:(lia) ltac:(lia)).
  - exact (correlation_mask_cell 3 2 1 ltac:(lia) ltac:(lia)).
Defined.

(** ** The series of the comparison and the coercion of years *)



(** X24: both views use the year only through [int]: a year given as a
    string of digits, as a float, which is truncated, or as a boolean gives
    the run of the integer it converts to. *)
Theorem year_is_coerced year y log_scale st :
  py_int year = inr y ->
  gapminder year log_scale st = gapminder (PyInt y) log_scale st
  /\ choropleth year st = choropleth (PyInt y) st.
Proof.
  intros Hy.
  assert (year_as_int year st = year_as_int (PyInt y) st) as Heq
      by (rewrite (year_as_int_ok year y st Hy);
          rewrite (year_as_int_ok (PyInt y) y st eq_refl); reflexivity).
  split.
  - unfold gapminder, bind. rewrite Heq. reflexivity.
  - unfold choropleth. unfold bind at 1. rewrite Heq. reflexivity.
Qed.

Lemma year_is_coerced_witness :
  gapminder (PyFloat (Fin (20009 # 10))) (PyBool true) sample_state
  = gapminder (PyInt 2000) (PyBool true) sample_state
  /\ choropleth (PyStr " 2_000 ") sample_state = choropleth (PyInt 2000) sample_state
  /\ gapminder (PyStr fullwidth_2000) (PyBool true) sample_state
     = gapminder (PyInt 2000) (PyBool true) sample_state.
Proof.
  split; [|split].
  - exact (proj1 (year_is_coerced (PyFloat (Fin (20009 # 10))) 2000 (PyBool true)
                    sample_state eq_refl)).
  - exact (proj2 (year_is_coerced (PyStr " 2_000 ") 2000 (PyBool true)
                    sample_state eq_refl)).
  - exact (proj1 (year_is_coerced (PyStr fullwidth_2000) 2000 (PyBool true)
                    sample_state eq_refl)).
Defined.
